(** * Ticketing system backend (src/backend/server.py): a shallow embedding

    The FastAPI handlers of [server.py] are modelled as computations in a
    small state-and-exception monad over the MongoDB store (three
    collections: users, tickets, comments).  Writes performed before an
    exception persist, as they do in MongoDB.  Timestamps ([datetime]) are
    integers counting microseconds, the resolution of [datetime.utcnow()];
    every call of [datetime.utcnow()] is an explicit argument of the handler
    that performs it, in the order of the calls.  Identifiers produced by
    [uuid.uuid4()] are explicit arguments as well.  MongoDB stores a
    [datetime] as a BSON date, in whole milliseconds: what a write stores is
    the value rounded down to the millisecond, while the handler's own
    Python object keeps its microseconds.  Python floats of the dashboard
    are IEEE 754 binary64 numbers ([SpecFloat] with [prec = 53],
    [emax = 1024]). *)

From Stdlib Require Import String List ZArith QArith Qround Qreduction Bool Lia Permutation Sorted.
From Stdlib Require Import Floats.SpecFloat.
From Stdlib Require HexString.
Import ListNotations.

(** ** Enumerations (UserRole, TicketStatus, TicketPriority, TicketCategory) *)

Inductive UserRole := END_USER | SUPPORT_AGENT | TEAM_LEAD | ADMIN.
Scheme Equality for UserRole.

Inductive TicketStatus := OPEN | IN_PROGRESS | RESOLVED | CLOSED.
Scheme Equality for TicketStatus.

Inductive TicketPriority := CRITICAL | HIGH | MEDIUM | LOW.
Scheme Equality for TicketPriority.

Inductive TicketCategory := TECHNICAL | BILLING | GENERAL.
Scheme Equality for TicketCategory.

(** ** Models (pydantic classes and stored documents) *)

(** A stored user document: [User.dict()] plus the ["password"] key. *)
Module User.
Record t := mk {
  id : string;
  email : string;
  name : string;
  role : UserRole;
  created_at : Z;
  is_active : bool;
  password : string
}.
End User.

Module UserResponse.
Record t := mk {
  id : string;
  email : string;
  name : string;
  role : UserRole;
  created_at : Z;
  is_active : bool
}.
End UserResponse.

Module UserLogin.
Record t := mk { email : string; password : string }.
End UserLogin.

(** A stored ticket document ([Ticket.dict()]).  [None] is a key holding
    [null]: [Ticket.dict()] writes every key, including the optional ones. *)
Module Ticket.
Record t := mk {
  id : string;
  title : string;
  description : string;
  priority : TicketPriority;
  category : TicketCategory;
  status : TicketStatus;
  created_by : string;
  assigned_to : option string;
  created_at : Z;
  updated_at : Z;
  resolved_at : option Z;
  closed_at : option Z
}.
End Ticket.

Module TicketCreate.
Record t := mk {
  title : string;
  description : string;
  priority : TicketPriority;
  category : TicketCategory
}.
End TicketCreate.

Module TicketUpdate.
Record t := mk {
  title : option string;
  description : option string;
  priority : option TicketPriority;
  category : option TicketCategory;
  status : option TicketStatus;
  assigned_to : option string
}.
End TicketUpdate.

Module TicketResponse.
Record t := mk {
  ticket : Ticket.t;
  created_by_name : string;
  assigned_to_name : option string
}.
End TicketResponse.

Module Comment.
Record t := mk {
  id : string;
  ticket_id : string;
  user_id : string;
  user_name : string;
  content : string;
  is_internal : bool;
  created_at : Z
}.
End Comment.

Module CommentCreate.
Record t := mk { content : string; is_internal : bool }.
End CommentCreate.

Module DashboardStats.
Record t := mk {
  total_tickets : nat;
  open_tickets : nat;
  in_progress_tickets : nat;
  resolved_tickets : nat;
  closed_tickets : nat;
  critical_tickets : nat;
  high_priority_tickets : nat;
  technical : nat;
  billing : nat;
  general : nat;
  avg_resolution_time_hours : spec_float
}.
End DashboardStats.

(** The [current_user] dict returned by [get_current_user]. *)
Module CurrentUser.
Record t := mk { id : string; role : UserRole; user_data : User.t }.
End CurrentUser.

(** ** The store and the handler monad *)

Record DB := mkDB {
  users : list User.t;
  tickets : list Ticket.t;
  comments : list Comment.t
}.

(** [HTTPException(status_code, detail)], or an uncaught [TypeError] or
    [AttributeError] (answered with status 500). *)
Inductive Exc :=
| HTTPException (status_code : Z) (detail : string)
| TypeError
| AttributeError.

Inductive Result (A : Type) :=
| Ok (a : A)
| Raise (e : Exc).
Arguments Ok {A} a.
Arguments Raise {A} e.

Definition M (A : Type) := DB -> DB * Result A.

Definition ret {A} (a : A) : M A := fun db => (db, Ok a).

Definition raise {A} (e : Exc) : M A := fun db => (db, Raise e).

Definition bind {A B} (m : M A) (k : A -> M B) : M B :=
  fun db =>
    let (db', r) := m db in
    match r with
    | Ok a => k a db'
    | Raise e => (db', Raise e)
    end.

Notation "x <- m ;; k" := (bind m (fun x => k))
  (at level 61, m at next level, right associativity).

Definition get_db : M DB := fun db => (db, Ok db).

(** [db.users.find_one({"id": uid})] and friends: the first match in
    insertion order. *)
Definition find_user_by_id (us : list User.t) (uid : string) : option User.t :=
  find (fun u => String.eqb (User.id u) uid) us.

Definition find_user_by_email (us : list User.t) (e : string) : option User.t :=
  find (fun u => String.eqb (User.email u) e) us.

Definition find_ticket (ts : list Ticket.t) (tid : string) : option Ticket.t :=
  find (fun t => String.eqb (Ticket.id t) tid) ts.

Definition find_one_user (uid : string) : M (option User.t) :=
  fun db => (db, Ok (find_user_by_id (users db) uid)).

Definition find_one_ticket (tid : string) : M (option Ticket.t) :=
  fun db => (db, Ok (find_ticket (tickets db) tid)).

(** A [datetime] written to MongoDB: a BSON date keeps whole milliseconds,
    the microseconds are dropped (timestamps here are not negative). *)
Definition ms (z : Z) : Z := z / 1000 * 1000.

(** The document [insert_one] stores for a [dict()] of the model. *)
Definition store_user (u : User.t) : User.t :=
  let 'User.mk i e n r c a p := u in User.mk i e n r (ms c) a p.

Definition store_ticket (t : Ticket.t) : Ticket.t :=
  let 'Ticket.mk i ti de pr ca st cb asg cr up re cl := t in
  Ticket.mk i ti de pr ca st cb asg (ms cr) (ms up) (option_map ms re) (option_map ms cl).

Definition store_comment (c : Comment.t) : Comment.t :=
  let 'Comment.mk i ti ui un co int cr := c in Comment.mk i ti ui un co int (ms cr).

Definition insert_user (u : User.t) : M unit :=
  fun db => (mkDB (users db ++ [store_user u]) (tickets db) (comments db), Ok tt).

Definition insert_ticket (t : Ticket.t) : M unit :=
  fun db => (mkDB (users db) (tickets db ++ [store_ticket t]) (comments db), Ok tt).

Definition insert_comment (c : Comment.t) : M unit :=
  fun db => (mkDB (users db) (tickets db) (comments db ++ [store_comment c]), Ok tt).

(** Python truthiness of an optional string ([if ticket.get("assigned_to")]). *)
Definition truthy (o : option string) : option string :=
  match o with
  | Some s => if String.eqb s EmptyString then None else Some s
  | None => None
  end.

(** [.sort(field, dir)] on a cursor: a stable insertion sort by the strict
    order [before] (documents with equal keys keep their store order). *)
Fixpoint insert_by {A} (before : A -> A -> bool) (x : A) (l : list A) : list A :=
  match l with
  | [] => [x]
  | y :: l' => if before y x then y :: insert_by before x l' else x :: y :: l'
  end.

Fixpoint sort_by {A} (before : A -> A -> bool) (l : list A) : list A :=
  match l with
  | [] => []
  | x :: l' => insert_by before x (sort_by before l')
  end.

(** [.to_list(1000)] *)
Definition to_list {A} (l : list A) : list A := firstn 1000 l.

(** ** Authentication ([get_current_user], [require_role], [login]) *)

(** The outcome of [jwt.decode] on a bearer token: an expired signature,
    an invalid token, or the payload of a token this server signed
    ([create_jwt_token] always writes the ["role"] key). *)
Inductive Decoded :=
| ExpiredSignature
| InvalidToken
| Payload (user_id : option string) (role : UserRole).

(** [get_current_user]: every exception of the [try] body is matched
    against [except jwt.ExpiredSignatureError], then against
    [except jwt.JWTError].  The [jwt] module ([import jwt], PyJWT) has no
    attribute [JWTError]: evaluating that second clause raises an
    [AttributeError], which replaces the exception being handled.  So an
    expired token gives the 401 ["Token expired"], and every other failure
    of the body (an invalid token, the 401 ["Invalid token"] on a missing
    [user_id], the 401 ["User not found"]) ends as an [AttributeError]. *)
Definition jwt_except : M CurrentUser.t := raise AttributeError.

Definition get_current_user (tok : Decoded) : M CurrentUser.t :=
  match tok with
  | ExpiredSignature => raise (HTTPException 401 "Token expired")
  | InvalidToken => jwt_except  (* jwt.InvalidTokenError *)
  | Payload uid user_role =>
      match truthy uid with
      | None => jwt_except  (* HTTPException(401, "Invalid token") *)
      | Some user_id =>
          user <- find_one_user user_id ;;
          match user with
          | None => jwt_except  (* HTTPException(401, "User not found") *)
          | Some u => ret (CurrentUser.mk user_id user_role u)
          end
      end
  end%string.

Definition require_role (required_roles : list UserRole) (current_user : CurrentUser.t)
  : M CurrentUser.t :=
  if existsb (UserRole_beq (CurrentUser.role current_user)) required_roles
  then ret current_user
  else raise (HTTPException 403 "Insufficient permissions"%string).

Section Login.
Variable hash_password : string -> string.

Definition verify_password (pw hashed : string) : bool :=
  String.eqb (hash_password pw) hashed.

(** The returned token is given by its decoded payload. *)
Definition login (credentials : UserLogin.t) : M (Decoded * UserResponse.t) :=
  fun db =>
    match find_user_by_email (users db) (UserLogin.email credentials) with
    | None => (db, Raise (HTTPException 401 "Invalid credentials"))
    | Some user =>
        if negb (verify_password (UserLogin.password credentials) (User.password user))
        then (db, Raise (HTTPException 401 "Invalid credentials"))
        else if negb (User.is_active user)
        then (db, Raise (HTTPException 401 "Account deactivated"))
        else (db, Ok (Payload (Some (User.id user)) (User.role user),
                      UserResponse.mk (User.id user) (User.email user) (User.name user)
                        (User.role user) (User.created_at user) (User.is_active user)))
    end%string.
End Login.

Module UserCreate.
Record t := mk { email : string; password : string; name : string; role : UserRole }.
End UserCreate.

Section Register.
Variable hash_password : string -> string.

(** The first [await] of [register]: the e-mail check. *)
Definition register_lookup (user_data : UserCreate.t) : M unit :=
  fun db =>
    match find_user_by_email (users db) (UserCreate.email user_data) with
    | Some _ => (db, Raise (HTTPException 400 "Email already registered"))
    | None => (db, Ok tt)
    end%string.

(** The second [await]: [insert_one(user_dict)], then the response.
    [new_id] is [str(uuid.uuid4())] and [now] the [datetime.utcnow()] of the
    [User] defaults; the returned token is given by its decoded payload
    ([create_jwt_token(user.id, user.role.value)]); the response carries the
    handler's [user] object, the store its copy with a millisecond date. *)
Definition register_insert (user_data : UserCreate.t) (new_id : string) (now : Z)
  : M (Decoded * UserResponse.t) :=
  let hashed_password := hash_password (UserCreate.password user_data) in
  let user := User.mk new_id (UserCreate.email user_data) (UserCreate.name user_data)
                (UserCreate.role user_data) now true hashed_password in
  _ <- insert_user user ;;
  ret (Payload (Some (User.id user)) (User.role user),
       UserResponse.mk (User.id user) (User.email user) (User.name user)
         (User.role user) (User.created_at user) (User.is_active user)).

(** Two awaits with no unique index on ["email"]: another request may run
    between them. *)
Definition register (user_data : UserCreate.t) (new_id : string) (now : Z)
  : M (Decoded * UserResponse.t) :=
  _ <- register_lookup user_data ;;
  register_insert user_data new_id now.
End Register.

(** ** Ticket routes *)

(** The length of a Python [str], for a string held as its UTF-8 bytes:
    the number of code points, i.e. of bytes that are not continuation
    bytes ([0x80 .. 0xBF]). *)
Fixpoint char_length (s : string) : nat :=
  match s with
  | EmptyString => 0
  | String a s' =>
      let b := Ascii.nat_of_ascii a in
      if Nat.leb 128 b && Nat.ltb b 192 then char_length s' else S (char_length s')
  end.

(** Pydantic's [max_length=120] on [title] (characters), checked when the
    body is parsed (after the dependencies): a 422. *)
Definition title_ok (s : string) : bool := Nat.leb (char_length s) 120.

Definition validation_error {A} : M A :=
  raise (HTTPException 422 "string_too_long"%string).

Definition create_ticket (ticket_data : TicketCreate.t) (current_user : CurrentUser.t)
  (new_id : string) (now_created now_updated : Z) : M TicketResponse.t :=
  if negb (title_ok (TicketCreate.title ticket_data)) then validation_error else
  let ticket :=
    Ticket.mk new_id (TicketCreate.title ticket_data) (TicketCreate.description ticket_data)
      (TicketCreate.priority ticket_data) (TicketCreate.category ticket_data)
      OPEN (CurrentUser.id current_user) None now_created now_updated None None in
  _ <- insert_ticket ticket ;;
  creator <- find_one_user (CurrentUser.id current_user) ;;
  match creator with
  | None => raise TypeError  (* creator["name"] on None *)
  | Some c =>
      (* send_email: any exception is logged and swallowed *)
      ret (TicketResponse.mk ticket (User.name c) None)
  end.

Definition opt_filter {A} (eqb : A -> A -> bool) (f : option A) (v : A) : bool :=
  match f with Some x => eqb v x | None => true end.

(** The Mongo query built by [get_tickets]. *)
Definition tickets_query (current_user : CurrentUser.t) (status : option TicketStatus)
  (category : option TicketCategory) (priority : option TicketPriority)
  (assigned_to_me : bool) (t : Ticket.t) : bool :=
  (if UserRole_beq (CurrentUser.role current_user) END_USER
   then String.eqb (Ticket.created_by t) (CurrentUser.id current_user) else true)
  && opt_filter TicketStatus_beq status (Ticket.status t)
  && opt_filter TicketCategory_beq category (Ticket.category t)
  && opt_filter TicketPriority_beq priority (Ticket.priority t)
  && (if assigned_to_me then
        match Ticket.assigned_to t with
        | Some a => String.eqb a (CurrentUser.id current_user)
        | None => false
        end
      else true).

(** [.sort("created_at", -1)] *)
Definition newer (a b : Ticket.t) : bool := Z.ltb (Ticket.created_at b) (Ticket.created_at a).

(** The [users] dict of [get_tickets]: the last document with the id wins. *)
Definition users_dict_get (us : list User.t) (uid : string) : option User.t :=
  find (fun u => String.eqb (User.id u) uid) (rev us).

Definition enrich (us : list User.t) (t : Ticket.t) : TicketResponse.t :=
  TicketResponse.mk t
    (match users_dict_get us (Ticket.created_by t) with
     | Some u => User.name u
     | None => "Unknown"%string
     end)
    (match truthy (Ticket.assigned_to t) with
     | Some a => option_map User.name (users_dict_get us a)
     | None => None
     end).

(** [user_ids] of [get_tickets]: the creators and the (truthy) assignees
    of the listed tickets. *)
Definition ticket_user_ids (ts : list Ticket.t) : list string :=
  flat_map (fun t => Ticket.created_by t ::
                     match truthy (Ticket.assigned_to t) with Some a => [a] | None => [] end) ts.

(** [db.users.find({"id": {"$in": list(user_ids)}}).to_list(1000)] *)
Definition users_in (ids : list string) (us : list User.t) : list User.t :=
  to_list (filter (fun u => existsb (String.eqb (User.id u)) ids) us).

Definition get_tickets (status : option TicketStatus) (category : option TicketCategory)
  (priority : option TicketPriority) (assigned_to_me : bool) (current_user : CurrentUser.t)
  : M (list TicketResponse.t) :=
  db <- get_db ;;
  let found := to_list (sort_by newer
                 (filter (tickets_query current_user status category priority assigned_to_me)
                    (tickets db))) in
  let us := users_in (ticket_user_ids found) (users db) in
  ret (map (enrich us) found).

Definition respond (t : Ticket.t) : M TicketResponse.t :=
  creator <- find_one_user (Ticket.created_by t) ;;
  assignee <- (match truthy (Ticket.assigned_to t) with
               | Some a => find_one_user a
               | None => ret None
               end) ;;
  ret (TicketResponse.mk t
         (match creator with Some c => User.name c | None => "Unknown"%string end)
         (option_map User.name assignee)).

Definition get_ticket (ticket_id : string) (current_user : CurrentUser.t) : M TicketResponse.t :=
  ticket <- find_one_ticket ticket_id ;;
  match ticket with
  | None => raise (HTTPException 404 "Ticket not found"%string)
  | Some t =>
      if UserRole_beq (CurrentUser.role current_user) END_USER
         && negb (String.eqb (Ticket.created_by t) (CurrentUser.id current_user))
      then raise (HTTPException 403 "Access denied"%string)
      else respond t
  end.

(** [update_ticket]: the keys of the [$set] document [update_data]. *)
Inductive SetOp :=
| SetTitle (s : string)
| SetDescription (s : string)
| SetPriority (p : TicketPriority)
| SetCategory (c : TicketCategory)
| SetStatus (s : TicketStatus)
| SetAssignedTo (a : string)
| SetUpdatedAt (z : Z)
| SetResolvedAt (z : Z)
| SetClosedAt (z : Z).

Definition set_field (t : Ticket.t) (o : SetOp) : Ticket.t :=
  let 'Ticket.mk i ti de pr ca st cb asg cr up re cl := t in
  match o with
  | SetTitle x => Ticket.mk i x de pr ca st cb asg cr up re cl
  | SetDescription x => Ticket.mk i ti x pr ca st cb asg cr up re cl
  | SetPriority x => Ticket.mk i ti de x ca st cb asg cr up re cl
  | SetCategory x => Ticket.mk i ti de pr x st cb asg cr up re cl
  | SetStatus x => Ticket.mk i ti de pr ca x cb asg cr up re cl
  | SetAssignedTo x => Ticket.mk i ti de pr ca st cb (Some x) cr up re cl
  | SetUpdatedAt x => Ticket.mk i ti de pr ca st cb asg cr x re cl
  | SetResolvedAt x => Ticket.mk i ti de pr ca st cb asg cr up (Some x) cl
  | SetClosedAt x => Ticket.mk i ti de pr ca st cb asg cr up re (Some x)
  end.

(** [{"$set": update_data}] applied to one document. *)
Definition mongo_set (t : Ticket.t) (ops : list SetOp) : Ticket.t := fold_left set_field ops t.

Definition present {A} (f : A -> SetOp) (o : option A) : list SetOp :=
  match o with Some x => [f x] | None => [] end.

(** [update_data]: the non-None fields of the update, then ["updated_at"],
    then the status side effect.  [now_updated] and [now_status] are the two
    calls of [datetime.utcnow()]. *)
Definition update_data (u : TicketUpdate.t) (now_updated now_status : Z) : list SetOp :=
  present SetTitle (TicketUpdate.title u)
  ++ present SetDescription (TicketUpdate.description u)
  ++ present SetPriority (TicketUpdate.priority u)
  ++ present SetCategory (TicketUpdate.category u)
  ++ present SetStatus (TicketUpdate.status u)
  ++ present SetAssignedTo (TicketUpdate.assigned_to u)
  ++ [SetUpdatedAt now_updated]
  ++ match TicketUpdate.status u with
     | Some RESOLVED => [SetResolvedAt now_status]
     | Some CLOSED => [SetClosedAt now_status]
     | _ => []
     end.

(** [update_one({"id": tid}, ...)]: the first matching document. *)
Fixpoint update_first (tid : string) (ops : list SetOp) (ts : list Ticket.t) : list Ticket.t :=
  match ts with
  | [] => []
  | t :: ts' =>
      if String.eqb (Ticket.id t) tid then mongo_set t ops :: ts'
      else t :: update_first tid ops ts'
  end.

(** A [$set] value as stored: a date keeps whole milliseconds. *)
Definition store_op (o : SetOp) : SetOp :=
  match o with
  | SetUpdatedAt z => SetUpdatedAt (ms z)
  | SetResolvedAt z => SetResolvedAt (ms z)
  | SetClosedAt z => SetClosedAt (ms z)
  | _ => o
  end.

Definition update_one (tid : string) (ops : list SetOp) : M unit :=
  fun db => (mkDB (users db) (update_first tid (map store_op ops) (tickets db)) (comments db),
             Ok tt).

Definition staff_roles : list UserRole := [SUPPORT_AGENT; TEAM_LEAD; ADMIN].

Definition update_title_ok (u : TicketUpdate.t) : bool :=
  match TicketUpdate.title u with Some s => title_ok s | None => true end.

Definition update_ticket (ticket_id : string) (ticket_update : TicketUpdate.t)
  (now_updated now_status : Z) (current_user : CurrentUser.t) : M TicketResponse.t :=
  _ <- require_role staff_roles current_user ;;
  if negb (update_title_ok ticket_update) then validation_error else
  ticket <- find_one_ticket ticket_id ;;
  match ticket with
  | None => raise (HTTPException 404 "Ticket not found"%string)
  | Some _ =>
      _ <- update_one ticket_id (update_data ticket_update now_updated now_status) ;;
      updated_ticket <- find_one_ticket ticket_id ;;
      match updated_ticket with
      | None => raise TypeError
      | Some t' =>
          (* the status e-mail: any exception is logged and swallowed *)
          respond t'
      end
  end.

(** ** Comment routes *)

Definition add_comment (ticket_id : string) (comment_data : CommentCreate.t)
  (new_id : string) (now : Z) (current_user : CurrentUser.t) : M Comment.t :=
  ticket <- find_one_ticket ticket_id ;;
  match ticket with
  | None => raise (HTTPException 404 "Ticket not found"%string)
  | Some _ =>
      if CommentCreate.is_internal comment_data
         && UserRole_beq (CurrentUser.role current_user) END_USER
      then raise (HTTPException 403 "Cannot create internal comments"%string)
      else
        let comment :=
          Comment.mk new_id ticket_id (CurrentUser.id current_user)
            (User.name (CurrentUser.user_data current_user))
            (CommentCreate.content comment_data) (CommentCreate.is_internal comment_data) now in
        _ <- insert_comment comment ;;
        (* the e-mail block runs inside try/except: never raises *)
        ret comment
  end.

Definition comments_query (ticket_id : string) (current_user : CurrentUser.t) (c : Comment.t)
  : bool :=
  String.eqb (Comment.ticket_id c) ticket_id
  && (if UserRole_beq (CurrentUser.role current_user) END_USER
      then Bool.eqb (Comment.is_internal c) false else true).

(** [.sort("created_at", 1)] *)
Definition older (a b : Comment.t) : bool := Z.ltb (Comment.created_at a) (Comment.created_at b).

Definition get_comments (ticket_id : string) (current_user : CurrentUser.t) : M (list Comment.t) :=
  ticket <- find_one_ticket ticket_id ;;
  match ticket with
  | None => raise (HTTPException 404 "Ticket not found"%string)
  | Some _ =>
      db <- get_db ;;
      ret (to_list (sort_by older (filter (comments_query ticket_id current_user) (comments db))))
  end.

(** ** Users and dashboard *)

Definition user_response (u : User.t) : UserResponse.t :=
  UserResponse.mk (User.id u) (User.email u) (User.name u) (User.role u)
    (User.created_at u) (User.is_active u).

Definition get_users (current_user : CurrentUser.t) : M (list UserResponse.t) :=
  _ <- require_role [ADMIN; TEAM_LEAD] current_user ;;
  db <- get_db ;;
  ret (map user_response (to_list (users db))).

Definition count_documents (p : Ticket.t -> bool) (ts : list Ticket.t) : nat :=
  length (filter p ts).

(** [{"$exists": True}] tests whether the key is in the document; a stored
    ticket always has the key ["resolved_at"] (holding [null] or a date). *)
Definition key_exists (v : option Z) : bool :=
  match v with Some _ | None => true end.

Definition resolution_query (t : Ticket.t) : bool :=
  (TicketStatus_beq (Ticket.status t) RESOLVED || TicketStatus_beq (Ticket.status t) CLOSED)
  && key_exists (Ticket.resolved_at t).

(** *** Python floats (IEEE 754 binary64) *)

Definition float := spec_float.
Definition f_prec : Z := 53.
Definition f_emax : Z := 1024.

Definition fadd : float -> float -> float := SFadd f_prec f_emax.
Definition fdiv : float -> float -> float := SFdiv f_prec f_emax.

(** [float(n)] for an int: the nearest double. *)
Definition float_of_int (n : Z) : float := binary_normalize f_prec f_emax n 0 false.

(** [a / b] on Python ints, [b > 0]: the correctly rounded quotient
    ([long_true_divide]); [a] and [b] are taken as the exact mantissas of the
    division, so no rounding happens before it. *)
Definition int_true_div (a : Z) (b : positive) : float :=
  match a with
  | Z0 => S754_zero false
  | Zpos p => fdiv (S754_finite false p 0) (S754_finite false b 0)
  | Zneg p => fdiv (S754_finite true p 0) (S754_finite false b 0)
  end.

(** [timedelta.total_seconds()]: the microseconds divided by [10**6]. *)
Definition total_seconds (diff : Z) : float := int_true_div diff 1000000.

(** [diff.total_seconds() / 3600] for a difference of microseconds. *)
Definition hours (diff : Z) : float := fdiv (total_seconds diff) (float_of_int 3600).

(** The loop [total_hours += ...] from the int [0] (the first addition is
    [0.0 + x]); [resolved_at - created_at] with [resolved_at = None] raises a
    [TypeError]. *)
Fixpoint total_hours_loop (ts : list Ticket.t) (total_hours : float) : Result float :=
  match ts with
  | [] => Ok total_hours
  | t :: ts' =>
      match Ticket.resolved_at t with
      | None => Raise TypeError
      | Some r => total_hours_loop ts' (fadd total_hours (hours (r - Ticket.created_at t)))
      end
  end.

(** On no ticket the average stays the int [0]; [round(0, 2)] is [0], which
    the float field holds as [0.0]. *)
Definition avg_resolution_time (resolved_tickets_with_times : list Ticket.t) : Result float :=
  match resolved_tickets_with_times with
  | [] => Ok (S754_zero false)
  | _ =>
      match total_hours_loop resolved_tickets_with_times (S754_zero false) with
      | Ok total =>
          Ok (fdiv total (float_of_int (Z.of_nat (length resolved_tickets_with_times))))
      | Raise e => Raise e
      end
  end.

(** The exact value of a finite double [m * 2^e], in absolute value. *)
Definition abs_value (m : positive) (e : Z) : Q :=
  match e with
  | Z0 => inject_Z (Zpos m)
  | Zpos p => inject_Z (Zpos m * Zpos (Pos.pow 2 p))
  | Zneg p => (Zpos m # Pos.pow 2 p)%Q
  end.

(** Round half to even. *)
Definition round_half_even (q : Q) : Z :=
  let f := Qfloor q in
  let r := (q - inject_Z f)%Q in
  if Qeq_bool r (1 # 2) then (if Z.even f then f else f + 1)%Z
  else if Qle_bool r (1 # 2) then f else (f + 1)%Z.

(** [round(x, 2)] on a float ([double_round]): [_Py_dg_dtoa] in mode 3
    rounds the exact binary value of [x] to 2 decimals, half to even, giving
    the digits [k] of [|x| * 100]; [_Py_dg_strtod] reads back ["k e-2"] with
    the sign of [x], i.e. the double nearest to [k / 100].  Zeros,
    infinities and NaN are returned unchanged. *)
Definition round2 (x : float) : float :=
  match x with
  | S754_finite s m e =>
      match round_half_even (abs_value m e * 100)%Q with
      | Zpos k => fdiv (S754_finite s k 0) (S754_finite false 100 0)
      | _ => S754_zero s
      end
  | _ => x
  end.

Definition get_dashboard_stats (current_user : CurrentUser.t) : M DashboardStats.t :=
  _ <- require_role staff_roles current_user ;;
  db <- get_db ;;
  let ts := tickets db in
  let st s t := TicketStatus_beq (Ticket.status t) s in
  let pr p t := TicketPriority_beq (Ticket.priority t) p in
  let ca c t := TicketCategory_beq (Ticket.category t) c in
  match avg_resolution_time (to_list (filter resolution_query ts)) with
  | Raise e => raise e
  | Ok avg =>
      ret (DashboardStats.mk (length ts)
             (count_documents (st OPEN) ts) (count_documents (st IN_PROGRESS) ts)
             (count_documents (st RESOLVED) ts) (count_documents (st CLOSED) ts)
             (count_documents (pr CRITICAL) ts) (count_documents (pr HIGH) ts)
             (count_documents (ca TECHNICAL) ts) (count_documents (ca BILLING) ts)
             (count_documents (ca GENERAL) ts)
             (round2 avg))
  end.

(** ** The authenticated routes *)

Inductive Request :=
| CreateTicket (ticket_data : TicketCreate.t) (new_id : string) (now_created now_updated : Z)
| GetTickets (status : option TicketStatus) (category : option TicketCategory)
    (priority : option TicketPriority) (assigned_to_me : bool)
| GetTicket (ticket_id : string)
| UpdateTicket (ticket_id : string) (ticket_update : TicketUpdate.t) (now_updated now_status : Z)
| AddComment (ticket_id : string) (comment_data : CommentCreate.t) (new_id : string) (now : Z)
| GetComments (ticket_id : string)
| GetUsers
| GetDashboardStats.

Inductive Response :=
| RTicket (r : TicketResponse.t)
| RTickets (rs : list TicketResponse.t)
| RComment (c : Comment.t)
| RComments (cs : list Comment.t)
| RUsers (us : list UserResponse.t)
| RStats (s : DashboardStats.t).

Definition fmap {A B} (f : A -> B) (m : M A) : M B := x <- m ;; ret (f x).

Definition handle (current_user : CurrentUser.t) (req : Request) : M Response :=
  match req with
  | CreateTicket d i t1 t2 => fmap RTicket (create_ticket d current_user i t1 t2)
  | GetTickets s c p a => fmap RTickets (get_tickets s c p a current_user)
  | GetTicket tid => fmap RTicket (get_ticket tid current_user)
  | UpdateTicket tid u t1 t2 => fmap RTicket (update_ticket tid u t1 t2 current_user)
  | AddComment tid d i t => fmap RComment (add_comment tid d i t current_user)
  | GetComments tid => fmap RComments (get_comments tid current_user)
  | GetUsers => fmap RUsers (get_users current_user)
  | GetDashboardStats => fmap RStats (get_dashboard_stats current_user)
  end.

(** A request with a bearer token: [Depends(get_current_user)] first. *)
Definition serve (tok : Decoded) (req : Request) : M Response :=
  current_user <- get_current_user tok ;;
  handle current_user req.

(** [get_current_user_info] ([/auth/me]): the stored user without its
    ["password"] key. *)
Definition get_current_user_info (current_user : CurrentUser.t) : M UserResponse.t :=
  ret (user_response (CurrentUser.user_data current_user)).

(** A sequence of authenticated requests, each with its bearer token. *)
Fixpoint serve_all (reqs : list (Decoded * Request)) (db : DB) : DB :=
  match reqs with
  | [] => db
  | (tok, req) :: reqs' => serve_all reqs' (fst (serve tok req db))
  end.

(** ** Concrete scenario (spec section 8) *)

Definition alice : User.t :=
  User.mk "alice" "a@x.io" "Alice" END_USER 0 true "h".
Definition sam : User.t :=
  User.mk "sam" "s@x.io" "Sam" SUPPORT_AGENT 0 true "h".
Definition db0 : DB := mkDB [alice; sam] [] [].
Definition printer : TicketCreate.t :=
  TicketCreate.mk "Printer jam" "It jams" HIGH TECHNICAL.
Definition alice_cu : CurrentUser.t := CurrentUser.mk "alice" END_USER alice.
Definition sam_cu : CurrentUser.t := CurrentUser.mk "sam" SUPPORT_AGENT sam.
Definition set_status (s : TicketStatus) : TicketUpdate.t :=
  TicketUpdate.mk None None None None (Some s) None.

(** A stored ticket created by the agent (dates in whole milliseconds),
    and a deactivated end user. *)
Definition vpn_ticket : Ticket.t :=
  Ticket.mk "T2" "VPN down" "No tunnel" CRITICAL TECHNICAL OPEN "sam" None 5000 5000 None None.
Definition db_vpn : DB := mkDB [alice; sam] [vpn_ticket] [].
Definition ivan : User.t :=
  User.mk "ivan" "i@x.io" "Ivan" END_USER 0 false "h".
Definition db_ivan : DB := mkDB [alice; sam; ivan] [vpn_ticket] [].

(** More tickets (or comments) than [.to_list(1000)] returns. *)
Definition owned_ticket (k : nat) : Ticket.t :=
  Ticket.mk (HexString.of_nat k) "Printer jam" "It jams" HIGH TECHNICAL OPEN "alice" None
    (Z.of_nat k * 1000) (Z.of_nat k * 1000) None None.
Definition db_many_tickets : DB := mkDB [alice; sam] (map owned_ticket (seq 0 1001)) [].
Definition note (k : nat) : Comment.t :=
  Comment.mk (HexString.of_nat k) "T2" "sam" "Sam" "checked" false (Z.of_nat k * 1000).
Definition db_many_comments : DB := mkDB [alice; sam] [vpn_ticket] (map note (seq 0 1001)).

(** 1001 resolved tickets: the first 1000 resolved at once, the last after
    1001 hours. *)
Definition resolved_ticket (k : nat) : Ticket.t :=
  Ticket.mk (HexString.of_nat k) "Printer jam" "It jams" HIGH TECHNICAL RESOLVED "alice"
    (Some "sam"%string) 0 0 (Some (if Nat.eqb k 1000 then 1001 * 3600000000 else 0)%Z) None.
Definition db_many_resolved : DB := mkDB [alice; sam] (map resolved_ticket (seq 0 1001)) [].

Definition db_one_resolved : DB := mkDB [alice; sam] [resolved_ticket 1000] [].

(** A ticket resolved 9630 seconds (2.675 hours) after its creation. *)
Definition slow_ticket : Ticket.t :=
  Ticket.mk "T4" "Slow" "Slow" LOW GENERAL RESOLVED "alice" None 0 9630000000
    (Some 9630000000%Z) None.
Definition db_slow : DB := mkDB [alice; sam] [slow_ticket] [].

(** A ticket closed without passing through [resolved]. *)
Definition closed_ticket : Ticket.t :=
  Ticket.mk "T3" "Spam" "Spam" LOW GENERAL CLOSED "alice" None 0 1000 None (Some 1000%Z).
Definition db_closed : DB := mkDB [alice; sam] [vpn_ticket; closed_ticket] [].

(** [user["is_active"] = True]: the same user, active. *)
Definition activate (u : User.t) : User.t :=
  User.mk (User.id u) (User.email u) (User.name u) (User.role u) (User.created_at u) true
    (User.password u).

(** * Proofs *)

(** ** General facts about the model *)

Lemma UserRole_beq_iff (r s : UserRole) : UserRole_beq r s = true <-> r = s.
Proof. destruct r, s; simpl; split; congruence. Qed.

Lemma require_role_staff (cu : CurrentUser.t) (db : DB) :
  CurrentUser.role cu <> END_USER -> require_role staff_roles cu db = (db, Ok cu).
Proof.
  destruct cu as [i r u]; simpl; intros H; unfold require_role, ret; simpl.
  destruct r; simpl; congruence.
Qed.

Lemma require_role_end_user (cu : CurrentUser.t) (rs : list UserRole) (db : DB) :
  CurrentUser.role cu = END_USER -> ~ In END_USER rs ->
  require_role rs cu db = (db, Raise (HTTPException 403 "Insufficient permissions"%string)).
Proof.
  intros Hr Hn; unfold require_role; rewrite Hr.
  destruct (existsb (UserRole_beq END_USER) rs) eqn:E; [|reflexivity].
  apply existsb_exists in E as [x [Hx Hb]]. apply UserRole_beq_iff in Hb; subst; contradiction.
Qed.

Lemma respond_ok (t : Ticket.t) (db : DB) :
  exists r, respond t db = (db, Ok r) /\ TicketResponse.ticket r = t.
Proof.
  unfold respond, bind, find_one_user, ret; simpl.
  destruct (truthy (Ticket.assigned_to t)); simpl; eexists; split; reflexivity.
Qed.

(** ** Viewing one ticket *)

(** C6: [get_ticket] reads the store only; it answers NotFound (404) when no
    ticket has the id; an [end_user] gets the ticket exactly when they created
    it (AccessDenied, 403, otherwise); every other role gets the ticket. *)
Theorem get_ticket_access (db : DB) (cu : CurrentUser.t) (ticket_id : string) :
  fst (get_ticket ticket_id cu db) = db /\
  match find_ticket (tickets db) ticket_id with
  | None => snd (get_ticket ticket_id cu db) = Raise (HTTPException 404 "Ticket not found")
  | Some t =>
      match CurrentUser.role cu with
      | END_USER =>
          (Ticket.created_by t = CurrentUser.id cu <->
             exists r, snd (get_ticket ticket_id cu db) = Ok r /\ TicketResponse.ticket r = t)
          /\ (Ticket.created_by t <> CurrentUser.id cu ->
             snd (get_ticket ticket_id cu db) = Raise (HTTPException 403 "Access denied"))
      | _ => exists r, snd (get_ticket ticket_id cu db) = Ok r /\ TicketResponse.ticket r = t
      end
  end.
Proof.
  unfold get_ticket, bind, find_one_ticket; simpl.
  destruct (find_ticket (tickets db) ticket_id) as [t|] eqn:Ht; simpl; [|split; reflexivity].
  destruct (respond_ok t db) as [r [Hr Hrt]].
  destruct cu as [uid role ud]; simpl.
  destruct role; simpl;
    try (rewrite Hr; split; [reflexivity | exists r; split; [reflexivity | exact Hrt]]).
  destruct (String.eqb_spec (Ticket.created_by t) uid) as [E|E]; simpl.
  - rewrite Hr; repeat split; try reflexivity.
    + intros _; exists r; split; [reflexivity | exact Hrt].
    + intros _; exact E.
    + intros C; contradiction.
  - repeat split; try reflexivity.
    + intros C; contradiction.
    + intros [r' [C _]]; discriminate.
Qed.

(** ** Role checks of the end user *)

(** C4: for an [end_user], [PUT /tickets/{id}], an internal comment on an
    existing ticket (whoever created it), [GET /users] and
    [GET /dashboard/stats] all raise AccessDenied (403) and change nothing. *)
Theorem end_user_access_denied (db : DB) (cu : CurrentUser.t)
  (Hrole : CurrentUser.role cu = END_USER) :
  (forall ticket_id ticket_update now_updated now_status,
     update_ticket ticket_id ticket_update now_updated now_status cu db
     = (db, Raise (HTTPException 403 "Insufficient permissions"))) /\
  (forall ticket_id t content new_id now,
     find_ticket (tickets db) ticket_id = Some t ->
     add_comment ticket_id (CommentCreate.mk content true) new_id now cu db
     = (db, Raise (HTTPException 403 "Cannot create internal comments"))) /\
  get_users cu db = (db, Raise (HTTPException 403 "Insufficient permissions")) /\
  get_dashboard_stats cu db = (db, Raise (HTTPException 403 "Insufficient permissions")).
Proof.
  assert (Hstaff : ~ In END_USER staff_roles) by (simpl; intuition discriminate).
  assert (Hadm : ~ In END_USER [ADMIN; TEAM_LEAD]) by (simpl; intuition discriminate).
  repeat split.
  - intros. unfold update_ticket, bind. rewrite (require_role_end_user cu _ db Hrole Hstaff).
    reflexivity.
  - intros ticket_id t content new_id now Ht.
    unfold add_comment, bind, find_one_ticket; simpl. rewrite Ht, Hrole. reflexivity.
  - unfold get_users, bind. rewrite (require_role_end_user cu _ db Hrole Hadm). reflexivity.
  - unfold get_dashboard_stats, bind.
    rewrite (require_role_end_user cu _ db Hrole Hstaff). reflexivity.
Qed.

Lemma end_user_access_denied_witness :
  CurrentUser.role alice_cu = END_USER /\
  get_users alice_cu db0 = (db0, Raise (HTTPException 403 "Insufficient permissions")).
Proof.
  split; [reflexivity|].
  exact (proj1 (proj2 (proj2 (end_user_access_denied db0 alice_cu eq_refl)))).
Defined.

(** ** Comments without an ownership check *)

(** C9: an [end_user] comments (non-internal) on any existing ticket, also
    one they did not create (the store receives the comment with its date
    in whole milliseconds, the answer is the comment as built), and lists
    its non-internal comments; the only AccessDenied the two comment routes
    raise is an end user's internal comment. *)
Theorem end_user_comments_without_ownership (db : DB) (cu : CurrentUser.t)
  (ticket_id : string) (t : Ticket.t)
  (Hrole : CurrentUser.role cu = END_USER)
  (Ht : find_ticket (tickets db) ticket_id = Some t) :
  (forall content new_id now,
     let c := Comment.mk new_id ticket_id (CurrentUser.id cu)
                (User.name (CurrentUser.user_data cu)) content false now in
     add_comment ticket_id (CommentCreate.mk content false) new_id now cu db
     = (mkDB (users db) (tickets db) (comments db ++ [store_comment c]), Ok c)) /\
  get_comments ticket_id cu db
  = (db, Ok (to_list (sort_by older
                (filter (fun c => String.eqb (Comment.ticket_id c) ticket_id
                                  && negb (Comment.is_internal c)) (comments db))))) /\
  (forall cu' db' tid d new_id now db'' detail,
     add_comment tid d new_id now cu' db' = (db'', Raise (HTTPException 403 detail)) ->
     CommentCreate.is_internal d = true /\ CurrentUser.role cu' = END_USER) /\
  (forall cu' db' tid detail,
     snd (get_comments tid cu' db') <> Raise (HTTPException 403 detail)).
Proof.
  split; [|split; [|split]].
  - intros content new_id now. unfold add_comment, bind, find_one_ticket; simpl.
    rewrite Ht. reflexivity.
  - unfold get_comments, bind, find_one_ticket, get_db, ret; simpl. rewrite Ht.
    do 4 f_equal. apply filter_ext. intros c. unfold comments_query. rewrite Hrole.
    simpl. destruct (Comment.is_internal c); simpl; reflexivity.
  - intros cu' db' tid d new_id now db'' detail.
    unfold add_comment, bind, find_one_ticket; simpl.
    destruct (find_ticket (tickets db') tid); simpl; [|intros H; inversion H].
    destruct (CommentCreate.is_internal d) eqn:Ei; simpl; [|intros H; inversion H].
    destruct (UserRole_beq (CurrentUser.role cu') END_USER) eqn:Er; simpl;
      intros H; inversion H.
    split; [reflexivity | apply UserRole_beq_iff; exact Er].
  - intros cu' db' tid detail. unfold get_comments, bind, find_one_ticket; simpl.
    destruct (find_ticket (tickets db') tid); simpl; intros H; inversion H.
Qed.

Lemma end_user_comments_without_ownership_witness :
  CurrentUser.role alice_cu = END_USER /\
  find_ticket (tickets db_vpn) "T2" = Some vpn_ticket /\
  get_comments "T2" alice_cu db_vpn = (db_vpn, Ok []).
Proof.
  split; [reflexivity|]. split; [reflexivity|].
  exact (proj1 (proj2 (end_user_comments_without_ownership db_vpn alice_cu "T2" vpn_ticket
                         eq_refl eq_refl))).
Defined.

(** ** Deactivated users *)

(** C10: a token carrying the id of a deactivated user ([is_active = false])
    is resolved by [get_current_user], and every authenticated route then
    behaves exactly as for the same user active; only [login] refuses the
    deactivated account. *)
Theorem deactivated_user_token_accepted (db : DB) (u : User.t) (token_role : UserRole)
  (Hfound : find_user_by_id (users db) (User.id u) = Some u)
  (Hinactive : User.is_active u = false)
  (Hid : User.id u <> EmptyString) :
  get_current_user (Payload (Some (User.id u)) token_role) db
  = (db, Ok (CurrentUser.mk (User.id u) token_role u)) /\
  (forall req,
     serve (Payload (Some (User.id u)) token_role) req db
     = handle (CurrentUser.mk (User.id u) token_role (activate u)) req db) /\
  (forall hash_password pw,
     find_user_by_email (users db) (User.email u) = Some u ->
     verify_password hash_password pw (User.password u) = true ->
     login hash_password (UserLogin.mk (User.email u) pw) db
     = (db, Raise (HTTPException 401 "Account deactivated"))).
Proof.
  assert (Hcur : get_current_user (Payload (Some (User.id u)) token_role) db
                 = (db, Ok (CurrentUser.mk (User.id u) token_role u))).
  { unfold get_current_user, truthy, bind, find_one_user, ret.
    destruct (String.eqb_spec (User.id u) EmptyString) as [E|_]; [contradiction|].
    rewrite Hfound. reflexivity. }
  split; [exact Hcur | split].
  - intros req. unfold serve, bind. rewrite Hcur.
    destruct req; destruct token_role; reflexivity.
  - intros hash_password pw He Hv. unfold login; simpl.
    rewrite He, Hv, Hinactive. reflexivity.
Qed.

Lemma deactivated_user_token_accepted_witness :
  find_user_by_id (users db_ivan) "ivan" = Some ivan /\
  User.is_active ivan = false /\
  serve (Payload (Some "ivan"%string) END_USER) (GetTicket "T2") db_ivan
  = handle (CurrentUser.mk "ivan" END_USER (activate ivan)) (GetTicket "T2") db_ivan.
Proof.
  split; [reflexivity|]. split; [reflexivity|].
  exact (proj1 (proj2 (deactivated_user_token_accepted db_ivan ivan END_USER
                         eq_refl eq_refl ltac:(discriminate))) (GetTicket "T2")).
Defined.

(** ** The partial update *)

(** The [$set] of [update_ticket] on one document, field by field. *)
Lemma mongo_set_update_data (t : Ticket.t) (u : TicketUpdate.t) (n1 n2 : Z) :
  mongo_set t (update_data u n1 n2) =
  Ticket.mk (Ticket.id t)
    (match TicketUpdate.title u with Some x => x | None => Ticket.title t end)
    (match TicketUpdate.description u with Some x => x | None => Ticket.description t end)
    (match TicketUpdate.priority u with Some x => x | None => Ticket.priority t end)
    (match TicketUpdate.category u with Some x => x | None => Ticket.category t end)
    (match TicketUpdate.status u with Some x => x | None => Ticket.status t end)
    (Ticket.created_by t)
    (match TicketUpdate.assigned_to u with Some x => Some x | None => Ticket.assigned_to t end)
    (Ticket.created_at t) n1
    (match TicketUpdate.status u with Some RESOLVED => Some n2 | _ => Ticket.resolved_at t end)
    (match TicketUpdate.status u with Some CLOSED => Some n2 | _ => Ticket.closed_at t end).
Proof.
  destruct t, u as [[?|] [?|] [?|] [?|] [[| | |]|] [?|]]; reflexivity.
Qed.

Lemma set_field_id (t : Ticket.t) (o : SetOp) : Ticket.id (set_field t o) = Ticket.id t.
Proof. destruct t, o; reflexivity. Qed.

Lemma mongo_set_id (ops : list SetOp) : forall t, Ticket.id (mongo_set t ops) = Ticket.id t.
Proof.
  unfold mongo_set; induction ops as [|o ops IH]; intros t; simpl; [reflexivity|].
  rewrite IH. apply set_field_id.
Qed.

Lemma find_update_first (tid : string) (ops : list SetOp) (ts : list Ticket.t) (t : Ticket.t) :
  find_ticket ts tid = Some t -> find_ticket (update_first tid ops ts) tid = Some (mongo_set t ops).
Proof.
  unfold find_ticket; induction ts as [|x ts IH]; simpl; [discriminate|].
  destruct (String.eqb (Ticket.id x) tid) eqn:E.
  - intros H; injection H as <-. simpl. rewrite mongo_set_id, E. reflexivity.
  - intros H; simpl; rewrite E; auto.
Qed.

(** Stored dates: [ms] rounds down to a multiple of 1000, monotonically. *)
Lemma ms_le (z : Z) : (ms z <= z)%Z.
Proof.
  unfold ms. pose proof (Z.div_mod z 1000 ltac:(lia)). pose proof (Z.mod_pos_bound z 1000 ltac:(lia)).
  lia.
Qed.

Lemma ms_mono (a b : Z) : (a <= b)%Z -> (ms a <= ms b)%Z.
Proof.
  unfold ms; intros H. apply Z.mul_le_mono_nonneg_r; [lia|]. apply Z.div_le_mono; lia.
Qed.

Lemma ms_idem (z : Z) : ms (ms z) = ms z.
Proof. unfold ms. rewrite Z.div_mul by lia. reflexivity. Qed.

(** For a stored date [u], a later stored date is at least one millisecond
    later. *)
Lemma ms_lt_iff (u n : Z) : ms u = u -> ((u < ms n)%Z <-> (u + 1000 <= n)%Z).
Proof.
  unfold ms; intros Hu.
  pose proof (Z.div_mod n 1000 ltac:(lia)). pose proof (Z.mod_pos_bound n 1000 ltac:(lia)).
  set (a := (n / 1000)%Z) in *. set (q := (u / 1000)%Z) in *. set (r := (n mod 1000)%Z) in *. lia.
Qed.

(** The [$set] as stored: the clock readings in whole milliseconds. *)
Lemma store_update_data (u : TicketUpdate.t) (n1 n2 : Z) :
  map store_op (update_data u n1 n2) = update_data u (ms n1) (ms n2).
Proof. destruct u as [[?|] [?|] [?|] [?|] [[| | |]|] [?|]]; reflexivity. Qed.

(** A staff update of an existing ticket with a valid body. *)
Lemma update_ticket_ok (db : DB) (cu : CurrentUser.t) (tid : string) (upd : TicketUpdate.t)
  (n1 n2 : Z) (t : Ticket.t) :
  CurrentUser.role cu <> END_USER -> update_title_ok upd = true ->
  find_ticket (tickets db) tid = Some t ->
  exists r,
    update_ticket tid upd n1 n2 cu db
    = (mkDB (users db) (update_first tid (update_data upd (ms n1) (ms n2)) (tickets db))
         (comments db), Ok r)
    /\ TicketResponse.ticket r = mongo_set t (update_data upd (ms n1) (ms n2)).
Proof.
  intros Hrole Hval Ht.
  unfold update_ticket. unfold bind at 1. rewrite (require_role_staff cu db Hrole).
  rewrite Hval. simpl. unfold bind, find_one_ticket, update_one; simpl. rewrite Ht.
  rewrite store_update_data.
  rewrite (find_update_first tid (update_data upd (ms n1) (ms n2)) _ t Ht).
  apply respond_ok.
Qed.

(** Whatever its outcome, [update_ticket] leaves the store unchanged or
    applies the [$set] to the first ticket with the id. *)
Lemma update_ticket_effect (db : DB) (cu : CurrentUser.t) (tid : string) (upd : TicketUpdate.t)
  (n1 n2 : Z) :
  fst (update_ticket tid upd n1 n2 cu db) = db \/
  fst (update_ticket tid upd n1 n2 cu db)
  = mkDB (users db) (update_first tid (update_data upd (ms n1) (ms n2)) (tickets db))
      (comments db).
Proof.
  unfold update_ticket. unfold bind at 1, require_role.
  destruct (existsb (UserRole_beq (CurrentUser.role cu)) staff_roles); [|left; reflexivity].
  unfold ret. destruct (negb (update_title_ok upd)); [left; reflexivity|].
  unfold bind, find_one_ticket; simpl.
  destruct (find_ticket (tickets db) tid) as [t|] eqn:Ht; simpl; [|left; reflexivity].
  right. unfold update_one; simpl. rewrite store_update_data.
  rewrite (find_update_first tid (update_data upd (ms n1) (ms n2)) _ t Ht).
  destruct (respond_ok (mongo_set t (update_data upd (ms n1) (ms n2)))
              (mkDB (users db) (update_first tid (update_data upd (ms n1) (ms n2)) (tickets db))
                 (comments db))) as [r [Hr _]].
  rewrite Hr. reflexivity.
Qed.

(** A later version [t'] of the document [t]: same id, and a set
    [resolved_at] / [closed_at] is still set. *)
Definition stamps_kept (t t' : Ticket.t) : Prop :=
  Ticket.id t' = Ticket.id t /\
  (Ticket.resolved_at t <> None -> Ticket.resolved_at t' <> None) /\
  (Ticket.closed_at t <> None -> Ticket.closed_at t' <> None).

Lemma stamps_kept_refl (t : Ticket.t) : stamps_kept t t.
Proof. unfold stamps_kept; auto. Qed.

Lemma stamps_kept_trans (a b c : Ticket.t) :
  stamps_kept a b -> stamps_kept b c -> stamps_kept a c.
Proof. unfold stamps_kept; intuition congruence. Qed.

Lemma set_field_stamps (t : Ticket.t) (o : SetOp) : stamps_kept t (set_field t o).
Proof. destruct t, o; unfold stamps_kept; simpl; intuition discriminate. Qed.

Lemma mongo_set_stamps (ops : list SetOp) : forall t, stamps_kept t (mongo_set t ops).
Proof.
  unfold mongo_set; induction ops as [|o ops IH]; intros t; simpl; [apply stamps_kept_refl|].
  eapply stamps_kept_trans; [apply set_field_stamps | apply IH].
Qed.

Lemma Forall2_stamps_refl (ts : list Ticket.t) : Forall2 stamps_kept ts ts.
Proof. induction ts; constructor; auto using stamps_kept_refl. Qed.

Lemma Forall2_stamps_trans (l1 : list Ticket.t) :
  forall l2 l3, Forall2 stamps_kept l1 l2 -> Forall2 stamps_kept l2 l3 ->
  Forall2 stamps_kept l1 l3.
Proof.
  induction l1 as [|a l1 IH]; intros l2 l3 H12 H23; inversion H12; subst;
    inversion H23; subst; constructor; eauto using stamps_kept_trans.
Qed.

Lemma update_first_stamps (tid : string) (ops : list SetOp) (ts : list Ticket.t) :
  Forall2 stamps_kept ts (update_first tid ops ts).
Proof.
  induction ts as [|t ts IH]; simpl; [constructor|].
  destruct (String.eqb (Ticket.id t) tid); constructor;
    auto using mongo_set_stamps, stamps_kept_refl, Forall2_stamps_refl.
Qed.

Lemma find_stamps (l l' : list Ticket.t) (tid : string) (t : Ticket.t) :
  Forall2 stamps_kept l l' -> find_ticket l tid = Some t ->
  exists t', find_ticket l' tid = Some t' /\ stamps_kept t t'.
Proof.
  unfold find_ticket; intros H; revert t; induction H as [|x x' l l' Hx _ IH]; intros t;
    simpl; [discriminate|].
  destruct Hx as [Hid Hrest]. rewrite Hid.
  destruct (String.eqb (Ticket.id x) tid).
  - intros E; injection E as <-. exists x'; split; [reflexivity | split; auto].
  - apply IH.
Qed.

Lemma update_ticket_stamps (db : DB) (cu : CurrentUser.t) (tid : string) (upd : TicketUpdate.t)
  (n1 n2 : Z) :
  Forall2 stamps_kept (tickets db) (tickets (fst (update_ticket tid upd n1 n2 cu db))).
Proof.
  destruct (update_ticket_effect db cu tid upd n1 n2) as [E|E]; rewrite E.
  - apply Forall2_stamps_refl.
  - apply update_first_stamps.
Qed.

(** A sequence of [PUT /tickets/{id}] requests, each by some actor with its
    own body and clock readings. *)
Fixpoint run_updates (ups : list (CurrentUser.t * string * TicketUpdate.t * Z * Z)) (db : DB)
  : DB :=
  match ups with
  | [] => db
  | (cu, tid, upd, n1, n2) :: rest => run_updates rest (fst (update_ticket tid upd n1 n2 cu db))
  end.

Lemma run_updates_stamps (ups : list (CurrentUser.t * string * TicketUpdate.t * Z * Z)) :
  forall db, Forall2 stamps_kept (tickets db) (tickets (run_updates ups db)).
Proof.
  induction ups as [|[[[[cu tid] upd] n1] n2] rest IH]; intros db; simpl.
  - apply Forall2_stamps_refl.
  - eapply Forall2_stamps_trans; [apply update_ticket_stamps | apply IH].
Qed.

(** C2: a staff update setting [status = resolved] writes [resolved_at]
    (setting [closed] writes [closed_at]) with the clock reading taken after
    [updated_at], stored in whole milliseconds like every date; it is not
    before the ticket's (stored) [created_at] when the clock has not gone
    back past the ticket's creation; and no sequence of updates, by any
    actor with any status, clears a [resolved_at] or [closed_at] once set. *)
Theorem update_status_stamps (db : DB) (cu : CurrentUser.t) (ticket_id : string)
  (upd : TicketUpdate.t) (now_updated now_status : Z) (t : Ticket.t)
  (Hrole : CurrentUser.role cu <> END_USER)
  (Hvalid : update_title_ok upd = true)
  (Ht : find_ticket (tickets db) ticket_id = Some t)
  (Hstored : ms (Ticket.created_at t) = Ticket.created_at t)
  (Hclock : (Ticket.created_at t <= now_status)%Z) :
  (exists t',
     find_ticket (tickets (fst (update_ticket ticket_id upd now_updated now_status cu db)))
       ticket_id = Some t' /\
     (TicketUpdate.status upd = Some RESOLVED ->
        Ticket.resolved_at t' = Some (ms now_status) /\
        (Ticket.created_at t' <= ms now_status)%Z) /\
     (TicketUpdate.status upd = Some CLOSED ->
        Ticket.closed_at t' = Some (ms now_status) /\
        (Ticket.created_at t' <= ms now_status)%Z)) /\
  (forall ups db0 tid t0,
     find_ticket (tickets db0) tid = Some t0 ->
     exists t1, find_ticket (tickets (run_updates ups db0)) tid = Some t1 /\
       (Ticket.resolved_at t0 <> None -> Ticket.resolved_at t1 <> None) /\
       (Ticket.closed_at t0 <> None -> Ticket.closed_at t1 <> None)).
Proof.
  split.
  - destruct (update_ticket_ok db cu ticket_id upd now_updated now_status t Hrole Hvalid Ht)
      as [r [E _]].
    rewrite E; simpl.
    exists (mongo_set t (update_data upd (ms now_updated) (ms now_status))).
    split; [apply find_update_first; exact Ht|].
    assert (Hle : (Ticket.created_at t <= ms now_status)%Z)
      by (rewrite <- Hstored; apply ms_mono; exact Hclock).
    rewrite mongo_set_update_data; simpl.
    split; intros Hs; rewrite Hs; auto.
  - intros ups db0 tid t0 H0.
    destruct (find_stamps _ _ tid t0 (run_updates_stamps ups db0) H0) as [t1 [H1 [_ Hk]]].
    exists t1; auto.
Qed.

Lemma update_status_stamps_witness :
  find_ticket (tickets db_vpn) "T2" = Some vpn_ticket /\
  ms (Ticket.created_at vpn_ticket) = Ticket.created_at vpn_ticket /\
  ms 7500 = 7000%Z /\
  (exists t',
     find_ticket (tickets (fst (update_ticket "T2" (set_status RESOLVED) 7200 7500 sam_cu db_vpn)))
       "T2" = Some t' /\
     (TicketUpdate.status (set_status RESOLVED) = Some RESOLVED ->
        Ticket.resolved_at t' = Some (ms 7500) /\ (Ticket.created_at t' <= ms 7500)%Z) /\
     (TicketUpdate.status (set_status RESOLVED) = Some CLOSED ->
        Ticket.closed_at t' = Some (ms 7500) /\ (Ticket.created_at t' <= ms 7500)%Z)).
Proof.
  split; [reflexivity|]. split; [reflexivity|]. split; [reflexivity|].
  exact (proj1 (update_status_stamps db_vpn sam_cu "T2" (set_status RESOLVED) 7200 7500 vpn_ticket
                  ltac:(discriminate) eq_refl eq_refl eq_refl ltac:(simpl; lia))).
Defined.

(** C8 (amended): a staff update of an existing ticket changes only the
    fields present in the body: every absent field (title, description,
    priority, category, status, assigned_to) and [created_by], [created_at]
    keep their value, present ones take the new value, and [updated_at]
    becomes the clock reading [now_updated] in whole milliseconds.  So,
    from a stored [updated_at], it never decreases when the clock has not
    gone back, and it increases exactly when the reading is at least one
    millisecond past the previous [updated_at]. *)
Theorem update_partial_frame (db : DB) (cu : CurrentUser.t) (ticket_id : string)
  (upd : TicketUpdate.t) (now_updated now_status : Z) (t : Ticket.t)
  (Hrole : CurrentUser.role cu <> END_USER)
  (Hvalid : update_title_ok upd = true)
  (Ht : find_ticket (tickets db) ticket_id = Some t)
  (Hstored : ms (Ticket.updated_at t) = Ticket.updated_at t) :
  exists t' r,
    update_ticket ticket_id upd now_updated now_status cu db
    = (mkDB (users db)
         (update_first ticket_id (update_data upd (ms now_updated) (ms now_status)) (tickets db))
         (comments db), Ok r) /\
    TicketResponse.ticket r = t' /\
    find_ticket (tickets (fst (update_ticket ticket_id upd now_updated now_status cu db)))
      ticket_id = Some t' /\
    Ticket.id t' = Ticket.id t /\
    Ticket.title t' = match TicketUpdate.title upd with Some x => x | None => Ticket.title t end /\
    Ticket.description t' =
      match TicketUpdate.description upd with Some x => x | None => Ticket.description t end /\
    Ticket.priority t' =
      match TicketUpdate.priority upd with Some x => x | None => Ticket.priority t end /\
    Ticket.category t' =
      match TicketUpdate.category upd with Some x => x | None => Ticket.category t end /\
    Ticket.status t' =
      match TicketUpdate.status upd with Some x => x | None => Ticket.status t end /\
    Ticket.assigned_to t' =
      match TicketUpdate.assigned_to upd with Some x => Some x | None => Ticket.assigned_to t end /\
    Ticket.created_by t' = Ticket.created_by t /\
    Ticket.created_at t' = Ticket.created_at t /\
    Ticket.updated_at t' = ms now_updated /\
    ((Ticket.updated_at t <= now_updated)%Z -> (Ticket.updated_at t <= Ticket.updated_at t')%Z) /\
    ((Ticket.updated_at t < Ticket.updated_at t')%Z <->
     (Ticket.updated_at t + 1000 <= now_updated)%Z).
Proof.
  destruct (update_ticket_ok db cu ticket_id upd now_updated now_status t Hrole Hvalid Ht)
    as [r [E Hr]].
  exists (mongo_set t (update_data upd (ms now_updated) (ms now_status))), r.
  rewrite E; simpl.
  split; [reflexivity|]. split; [exact Hr|].
  split; [apply find_update_first; exact Ht|].
  rewrite mongo_set_update_data; simpl.
  repeat split; auto.
  - intros Hle. rewrite <- Hstored. apply ms_mono; exact Hle.
  - apply ms_lt_iff; exact Hstored.
  - apply ms_lt_iff; exact Hstored.
Qed.

Lemma update_partial_frame_witness :
  exists t' r,
    update_ticket "T2" (set_status IN_PROGRESS) 6500 6600 sam_cu db_vpn
    = (mkDB (users db_vpn)
         (update_first "T2" (update_data (set_status IN_PROGRESS) (ms 6500) (ms 6600))
            (tickets db_vpn))
         (comments db_vpn), Ok r) /\
    TicketResponse.ticket r = t' /\ Ticket.title t' = "VPN down"%string /\
    Ticket.updated_at t' = ms 6500 /\ (Ticket.updated_at vpn_ticket < Ticket.updated_at t')%Z.
Proof.
  destruct (update_partial_frame db_vpn sam_cu "T2" (set_status IN_PROGRESS) 6500 6600 vpn_ticket
              ltac:(discriminate) eq_refl eq_refl eq_refl)
    as [t' [r [E [Hr [_ [_ [Htitle [_ [_ [_ [_ [_ [_ [_ [Hup [_ Hinc]]]]]]]]]]]]]]]].
  exists t', r. split; [exact E|]. split; [exact Hr|]. split; [exact Htitle|].
  split; [exact Hup|]. apply Hinc. simpl. lia.
Defined.

(** C8, as stated ("[updated_at] strictly increases on every mutation")
    fails: an update half a millisecond after the stored [updated_at] of
    [vpn_ticket] (5000 us) stores [updated_at = 5000] again. *)
Lemma update_same_millisecond :
  exists t',
    find_ticket (tickets (fst (update_ticket "T2" (set_status IN_PROGRESS) 5500 5500 sam_cu db_vpn)))
      "T2" = Some t' /\
    Ticket.status t' = IN_PROGRESS /\ Ticket.status vpn_ticket = OPEN /\
    (Ticket.updated_at vpn_ticket < 5500)%Z /\
    Ticket.updated_at t' = Ticket.updated_at vpn_ticket.
Proof. eexists; split; [reflexivity|]. repeat split; reflexivity. Qed.

(** ** Ticket creation *)

(** C7, as stated ([created_at = updated_at]) fails: the two fields are
    filled by two calls of [datetime.utcnow()] ([default_factory]), which
    read the clock at different instants. *)
Lemma create_ticket_timestamps_differ :
  exists r,
    snd (create_ticket printer alice_cu "T1" 10 11 db0) = Ok r /\
    Ticket.created_at (TicketResponse.ticket r) <> Ticket.updated_at (TicketResponse.ticket r).
Proof. eexists; split; [reflexivity | simpl; discriminate]. Qed.

(** C7 (amended): a successful creation returns a ticket with status
    [open], no [resolved_at] and no [closed_at], the generated uuid as id
    (ids stay distinct when that uuid was unused: no check is made), the
    actor as creator, no assignee, and [created_at], [updated_at] from two
    successive clock readings, so [created_at <= updated_at] for a clock that
    does not go back; the store receives the same ticket with its dates in
    whole milliseconds. *)
Theorem create_ticket_fresh (db db' : DB) (d : TicketCreate.t) (cu : CurrentUser.t)
  (new_id : string) (now_created now_updated : Z) (r : TicketResponse.t)
  (H : create_ticket d cu new_id now_created now_updated db = (db', Ok r)) :
  Ticket.status (TicketResponse.ticket r) = OPEN /\
  Ticket.resolved_at (TicketResponse.ticket r) = None /\
  Ticket.closed_at (TicketResponse.ticket r) = None /\
  Ticket.id (TicketResponse.ticket r) = new_id /\
  Ticket.created_by (TicketResponse.ticket r) = CurrentUser.id cu /\
  Ticket.assigned_to (TicketResponse.ticket r) = None /\
  Ticket.created_at (TicketResponse.ticket r) = now_created /\
  Ticket.updated_at (TicketResponse.ticket r) = now_updated /\
  tickets db' = tickets db ++ [store_ticket (TicketResponse.ticket r)] /\
  ((now_created <= now_updated)%Z ->
     (Ticket.created_at (TicketResponse.ticket r) <= Ticket.updated_at (TicketResponse.ticket r))%Z) /\
  (NoDup (map Ticket.id (tickets db)) -> ~ In new_id (map Ticket.id (tickets db)) ->
     NoDup (map Ticket.id (tickets db'))).
Proof.
  unfold create_ticket in H.
  destruct (title_ok (TicketCreate.title d)); simpl in H; [|discriminate].
  unfold bind, insert_ticket, find_one_user, ret, raise in H; simpl in H.
  destruct (find_user_by_id (users db) (CurrentUser.id cu)); [|discriminate].
  injection H as <- <-; simpl.
  repeat split; auto.
  intros Hnd Hin. rewrite map_app; simpl.
  apply (Permutation_NoDup (Permutation_app_comm [new_id] _)). simpl.
  constructor; assumption.
Qed.

Lemma create_ticket_fresh_witness :
  exists db' r,
    create_ticket printer alice_cu "T1" 10 11 db0 = (db', Ok r) /\
    Ticket.status (TicketResponse.ticket r) = OPEN.
Proof.
  eexists; eexists. split; [cbv; reflexivity|].
  exact (proj1 (create_ticket_fresh db0 _ printer alice_cu "T1" 10 11 _ eq_refl)).
Defined.

(** ** Sorted, truncated listings *)

Section Sorting.
Variable A : Type.
Variable before : A -> A -> bool.
Variable R : A -> A -> Prop.
Hypothesis before_false : forall x y, before y x = false -> R x y.
Hypothesis before_true : forall x y, before y x = true -> R y x.
Hypothesis R_trans : forall x y z, R x y -> R y z -> R x z.

Lemma insert_by_perm (x : A) (l : list A) : Permutation (insert_by before x l) (x :: l).
Proof.
  induction l as [|y l IH]; simpl; [reflexivity|].
  destruct (before y x); [|reflexivity].
  rewrite IH. apply perm_swap.
Qed.

Lemma sort_by_perm (l : list A) : Permutation (sort_by before l) l.
Proof.
  induction l as [|x l IH]; simpl; [reflexivity|].
  rewrite insert_by_perm, IH. reflexivity.
Qed.

Lemma insert_by_hdrel (x y : A) (l : list A) :
  HdRel R y l -> R y x -> HdRel R y (insert_by before x l).
Proof.
  destruct l as [|z l]; simpl; intros H Hyx; [constructor; exact Hyx|].
  destruct (before z x); constructor; [inversion H; assumption | exact Hyx].
Qed.

Lemma insert_by_sorted (x : A) (l : list A) : Sorted R l -> Sorted R (insert_by before x l).
Proof.
  induction l as [|y l IH]; simpl; intros H; [repeat constructor|].
  destruct (before y x) eqn:E.
  - inversion H; subst. constructor; [apply IH; assumption|].
    apply insert_by_hdrel; [assumption | apply before_true; exact E].
  - constructor; [exact H | constructor; apply before_false; exact E].
Qed.

Lemma sort_by_sorted (l : list A) : Sorted R (sort_by before l).
Proof. induction l; simpl; [constructor | apply insert_by_sorted; assumption]. Qed.

Lemma firstn_sorted (n : nat) (l : list A) : Sorted R l -> Sorted R (firstn n l).
Proof.
  revert l; induction n as [|n IH]; intros l H; [constructor|].
  destruct l as [|x l]; simpl; [constructor|].
  inversion H as [|? ? Hl Hx]; subst. constructor; [apply IH; exact Hl|].
  destruct l as [|y l]; destruct n; simpl; try constructor.
  inversion Hx; assumption.
Qed.

Lemma in_to_list (x : A) (l : list A) : In x (to_list l) -> In x l.
Proof.
  unfold to_list; intros H. rewrite <- (firstn_skipn 1000 l). apply in_or_app; left; exact H.
Qed.

Lemma to_list_small (l : list A) : (length l <= 1000)%nat -> to_list l = l.
Proof. apply firstn_all2. Qed.

Lemma to_list_length (l : list A) : (length (to_list l) <= 1000)%nat.
Proof. unfold to_list; rewrite length_firstn; lia. Qed.

Lemma strongly_sorted_app (l1 l2 : list A) (x y : A) :
  StronglySorted R (l1 ++ l2) -> In y l1 -> In x l2 -> R y x.
Proof.
  induction l1 as [|a l1 IH]; simpl; [intros _ []|].
  intros H Hy Hx. apply StronglySorted_inv in H as [H Ha].
  destruct Hy as [<-|Hy].
  - rewrite Forall_forall in Ha. apply Ha, in_or_app; right; exact Hx.
  - apply IH; assumption.
Qed.

(** The listing [to_list (sort_by before (filter p l))]: at most 1000
    elements, sorted, all matching; all the matching ones when at most 1000
    match, exactly 1000 otherwise; and every listed element comes before
    (in [R]) every matching element left out. *)
Lemma listing_spec (p : A -> bool) (l : list A) :
  let res := to_list (sort_by before (filter p l)) in
  (length res <= 1000)%nat /\ Sorted R res /\
  (forall x, In x res -> In x l /\ p x = true) /\
  ((length (filter p l) <= 1000)%nat -> forall x, In x l -> p x = true -> In x res) /\
  ((1000 <= length (filter p l))%nat -> length res = 1000%nat) /\
  (forall x y, In x l -> p x = true -> ~ In x res -> In y res -> R y x).
Proof.
  simpl. split; [apply to_list_length|]. split.
  { apply firstn_sorted, sort_by_sorted. }
  split; [|split; [|split]].
  - intros x Hx. apply in_to_list in Hx.
    apply (Permutation_in _ (sort_by_perm _)) in Hx. apply filter_In; exact Hx.
  - intros Hlen x Hx Hp. rewrite to_list_small.
    + apply (Permutation_in _ (Permutation_sym (sort_by_perm _))). apply filter_In; auto.
    + rewrite (Permutation_length (sort_by_perm _)). exact Hlen.
  - intros Hbig. unfold to_list. rewrite length_firstn, (Permutation_length (sort_by_perm _)).
    lia.
  - intros x y Hx Hp Hout Hy.
    assert (Hs : In x (sort_by before (filter p l))).
    { apply (Permutation_in _ (Permutation_sym (sort_by_perm _))). apply filter_In; auto. }
    assert (Hss : StronglySorted R (sort_by before (filter p l))).
    { apply Sorted_StronglySorted; [exact R_trans | apply sort_by_sorted]. }
    unfold to_list in *. rewrite <- (firstn_skipn 1000 (sort_by before (filter p l))) in Hs, Hss.
    apply in_app_or in Hs as [Hs|Hs]; [contradiction|].
    exact (strongly_sorted_app _ _ x y Hss Hy Hs).
Qed.
End Sorting.

Lemma in_ids (t : Ticket.t) (l : list Ticket.t) :
  In t l -> existsb (fun x => String.eqb (Ticket.id x) (Ticket.id t)) l = true.
Proof. intros H; apply existsb_exists; exists t; split; [exact H | apply String.eqb_refl]. Qed.

Lemma in_comment_ids (c : Comment.t) (l : list Comment.t) :
  In c l -> existsb (fun x => String.eqb (Comment.id x) (Comment.id c)) l = true.
Proof. intros H; apply existsb_exists; exists c; split; [exact H | apply String.eqb_refl]. Qed.

(** ** Listing tickets *)

(** The explicit filters of [GET /tickets], as the spec states them. *)
Definition filters_hold (status : option TicketStatus) (category : option TicketCategory)
  (priority : option TicketPriority) (assigned_to_me : bool) (uid : string) (t : Ticket.t)
  : Prop :=
  (status = None \/ status = Some (Ticket.status t)) /\
  (category = None \/ category = Some (Ticket.category t)) /\
  (priority = None \/ priority = Some (Ticket.priority t)) /\
  (assigned_to_me = true -> Ticket.assigned_to t = Some uid).

Lemma opt_filter_iff {B} (eqb : B -> B -> bool) (Heq : forall x y, eqb x y = true <-> x = y)
  (f : option B) (v : B) : opt_filter eqb f v = true <-> f = None \/ f = Some v.
Proof.
  destruct f as [x|]; simpl.
  - rewrite Heq. split; [intros ->; right; reflexivity | intros [C|C]; congruence].
  - split; auto.
Qed.

Lemma TicketStatus_beq_iff (x y : TicketStatus) : TicketStatus_beq x y = true <-> x = y.
Proof. destruct x, y; simpl; split; congruence. Qed.

Lemma TicketPriority_beq_iff (x y : TicketPriority) : TicketPriority_beq x y = true <-> x = y.
Proof. destruct x, y; simpl; split; congruence. Qed.

Lemma TicketCategory_beq_iff (x y : TicketCategory) : TicketCategory_beq x y = true <-> x = y.
Proof. destruct x, y; simpl; split; congruence. Qed.

Lemma tickets_query_iff (cu : CurrentUser.t) status category priority assigned_to_me
  (t : Ticket.t) :
  tickets_query cu status category priority assigned_to_me t = true <->
  (CurrentUser.role cu = END_USER -> Ticket.created_by t = CurrentUser.id cu) /\
  filters_hold status category priority assigned_to_me (CurrentUser.id cu) t.
Proof.
  unfold tickets_query, filters_hold.
  rewrite !andb_true_iff, (opt_filter_iff _ (TicketStatus_beq_iff)),
    (opt_filter_iff _ (TicketCategory_beq_iff)), (opt_filter_iff _ (TicketPriority_beq_iff)).
  assert (Howner : (if UserRole_beq (CurrentUser.role cu) END_USER
                    then String.eqb (Ticket.created_by t) (CurrentUser.id cu) else true) = true
                   <-> (CurrentUser.role cu = END_USER ->
                        Ticket.created_by t = CurrentUser.id cu)).
  { destruct (CurrentUser.role cu); simpl;
      try (split; [intros _ C; discriminate | reflexivity]).
    rewrite String.eqb_eq. split; auto. }
  assert (Hassigned : (if assigned_to_me then
                         match Ticket.assigned_to t with
                         | Some a => String.eqb a (CurrentUser.id cu)
                         | None => false
                         end
                       else true) = true
                      <-> (assigned_to_me = true ->
                           Ticket.assigned_to t = Some (CurrentUser.id cu))).
  { destruct assigned_to_me; [|split; [discriminate | reflexivity]].
    destruct (Ticket.assigned_to t) as [a|].
    - rewrite String.eqb_eq. split; [intros -> _; reflexivity | intros H; injection (H eq_refl); auto].
    - split; [discriminate | intros H; discriminate (H eq_refl)]. }
  rewrite Howner, Hassigned. tauto.
Qed.

(** C3 (amended): [GET /tickets] answers, newest first, at most 1000 of the
    tickets matching its query, which is: created by the actor for an
    [end_user], any ticket for the other roles, and in both cases the
    explicit status / category / priority / assigned-to-me filters.  When at
    most 1000 tickets match, every matching ticket is in the answer;
    otherwise the answer has 1000 of them, and every answered ticket is at
    least as new as every matching ticket left out. *)
Theorem get_tickets_listing (db : DB) (cu : CurrentUser.t) (status : option TicketStatus)
  (category : option TicketCategory) (priority : option TicketPriority) (assigned_to_me : bool) :
  exists l,
    get_tickets status category priority assigned_to_me cu db = (db, Ok l) /\
    (length l <= 1000)%nat /\
    Sorted (fun a b => (Ticket.created_at b <= Ticket.created_at a)%Z)
      (map TicketResponse.ticket l) /\
    (forall t, tickets_query cu status category priority assigned_to_me t = true <->
       (CurrentUser.role cu = END_USER -> Ticket.created_by t = CurrentUser.id cu) /\
       filters_hold status category priority assigned_to_me (CurrentUser.id cu) t) /\
    (forall t, In t (map TicketResponse.ticket l) ->
       In t (tickets db) /\ tickets_query cu status category priority assigned_to_me t = true) /\
    ((length (filter (tickets_query cu status category priority assigned_to_me) (tickets db))
        <= 1000)%nat ->
     forall t, In t (tickets db) -> tickets_query cu status category priority assigned_to_me t = true ->
       In t (map TicketResponse.ticket l)) /\
    ((1000 <= length (filter (tickets_query cu status category priority assigned_to_me)
                        (tickets db)))%nat -> length l = 1000%nat) /\
    (forall t u, In t (tickets db) ->
       tickets_query cu status category priority assigned_to_me t = true ->
       ~ In t (map TicketResponse.ticket l) -> In u (map TicketResponse.ticket l) ->
       (Ticket.created_at t <= Ticket.created_at u)%Z).
Proof.
  set (q := tickets_query cu status category priority assigned_to_me).
  set (res := to_list (sort_by newer (filter q (tickets db)))).
  set (us := users_in (ticket_user_ids res) (users db)).
  exists (map (enrich us) res).
  assert (Hmap : map TicketResponse.ticket (map (enrich us) res) = res).
  { rewrite map_map. apply map_id. }
  destruct (listing_spec Ticket.t newer
              (fun a b => (Ticket.created_at b <= Ticket.created_at a)%Z)
              ltac:(intros x y E; unfold newer in E; apply Z.ltb_ge in E; exact E)
              ltac:(intros x y E; unfold newer in E; apply Z.ltb_lt in E; cbv beta; lia)
              ltac:(intros x y z; cbv beta; lia)
              q (tickets db)) as [Hlen [Hsort [Hsub [Hall [Hbig Htop]]]]].
  split; [reflexivity|].
  rewrite Hmap, length_map.
  split; [exact Hlen|]. split; [exact Hsort|].
  split; [intros t; apply tickets_query_iff|].
  split; [exact Hsub|]. split; [exact Hall|]. split; [exact Hbig | exact Htop].
Qed.

(** C3, as stated ("exactly the set of tickets created by the actor") fails
    past 1000 tickets: of 1001 tickets of [alice], created one millisecond
    apart, the oldest is not listed. *)
Lemma get_tickets_truncated :
  exists l,
    get_tickets None None None false alice_cu db_many_tickets = (db_many_tickets, Ok l) /\
    In (owned_ticket 0) (tickets db_many_tickets) /\
    Ticket.created_by (owned_ticket 0) = CurrentUser.id alice_cu /\
    ~ In (owned_ticket 0) (map TicketResponse.ticket l).
Proof.
  set (found := to_list (sort_by newer (filter (tickets_query alice_cu None None None false)
                                          (tickets db_many_tickets)))).
  exists (map (enrich (users_in (ticket_user_ids found) (users db_many_tickets))) found).
  split; [reflexivity|].
  split; [left; reflexivity|]. split; [reflexivity|].
  intros H. apply in_ids in H. vm_compute in H. discriminate H.
Qed.

(** ** Listing comments *)

Lemma comments_query_iff (tid : string) (cu : CurrentUser.t) (c : Comment.t) :
  comments_query tid cu c = true <->
  Comment.ticket_id c = tid /\
  (CurrentUser.role cu = END_USER -> Comment.is_internal c = false).
Proof.
  unfold comments_query. rewrite andb_true_iff, String.eqb_eq.
  destruct (CurrentUser.role cu), (Comment.is_internal c); simpl; intuition congruence.
Qed.

(** C5 (amended): on an existing ticket, [GET /tickets/{id}/comments]
    answers at most 1000 of the ticket's comments, oldest first; an
    [end_user] never gets an internal one; when at most 1000 comments are
    visible to the actor (all of them for staff, the non-internal ones for an
    [end_user]) every one of them is in the answer; otherwise the answer has
    1000 of them, and every answered comment is at least as old as every
    visible comment left out. *)
Theorem get_comments_listing (db : DB) (cu : CurrentUser.t) (ticket_id : string) (t : Ticket.t)
  (Ht : find_ticket (tickets db) ticket_id = Some t) :
  exists l,
    get_comments ticket_id cu db = (db, Ok l) /\
    (length l <= 1000)%nat /\
    Sorted (fun a b => (Comment.created_at a <= Comment.created_at b)%Z) l /\
    (forall c, In c l ->
       In c (comments db) /\ Comment.ticket_id c = ticket_id /\
       (CurrentUser.role cu = END_USER -> Comment.is_internal c = false)) /\
    ((length (filter (comments_query ticket_id cu) (comments db)) <= 1000)%nat ->
     forall c, In c (comments db) -> Comment.ticket_id c = ticket_id ->
       (CurrentUser.role cu = END_USER -> Comment.is_internal c = false) -> In c l) /\
    ((1000 <= length (filter (comments_query ticket_id cu) (comments db)))%nat ->
     length l = 1000%nat) /\
    (forall c d, In c (comments db) -> Comment.ticket_id c = ticket_id ->
       (CurrentUser.role cu = END_USER -> Comment.is_internal c = false) ->
       ~ In c l -> In d l -> (Comment.created_at d <= Comment.created_at c)%Z).
Proof.
  exists (to_list (sort_by older (filter (comments_query ticket_id cu) (comments db)))).
  destruct (listing_spec Comment.t older
              (fun a b => (Comment.created_at a <= Comment.created_at b)%Z)
              ltac:(intros x y E; unfold older in E; apply Z.ltb_ge in E; exact E)
              ltac:(intros x y E; unfold older in E; apply Z.ltb_lt in E; cbv beta; lia)
              ltac:(intros x y z; cbv beta; lia)
              (comments_query ticket_id cu) (comments db))
    as [Hlen [Hsort [Hsub [Hall [Hbig Htop]]]]].
  split.
  { unfold get_comments, bind, find_one_ticket; simpl. rewrite Ht. reflexivity. }
  split; [exact Hlen|]. split; [exact Hsort|]. split; [|split; [|split]].
  - intros c Hc. destruct (Hsub c Hc) as [Hin Hq]. apply comments_query_iff in Hq.
    destruct Hq as [Hq1 Hq2]. auto.
  - intros Hsmall c Hin Htid Hint. apply Hall; [exact Hsmall | exact Hin|].
    apply comments_query_iff; auto.
  - exact Hbig.
  - intros c d Hin Htid Hint Hout Hd. apply (Htop c d Hin); [|exact Hout | exact Hd].
    apply comments_query_iff; auto.
Qed.

Lemma get_comments_listing_witness :
  find_ticket (tickets db_vpn) "T2" = Some vpn_ticket /\
  exists l, get_comments "T2" sam_cu db_vpn = (db_vpn, Ok l) /\ (length l <= 1000)%nat.
Proof.
  split; [reflexivity|].
  destruct (get_comments_listing db_vpn sam_cu "T2" vpn_ticket eq_refl) as [l [E [Hl _]]].
  exists l; split; [exact E | exact Hl].
Defined.

(** C5, as stated ("staff get all of the ticket's comments") fails past
    1000 comments: of 1001 comments on the ticket, written one millisecond
    apart, the newest is not listed. *)
Lemma get_comments_truncated :
  exists l,
    get_comments "T2" sam_cu db_many_comments = (db_many_comments, Ok l) /\
    In (note 1000) (comments db_many_comments) /\
    Comment.ticket_id (note 1000) = "T2"%string /\
    ~ In (note 1000) l.
Proof.
  exists (to_list (sort_by older (filter (comments_query "T2" sam_cu)
                                    (comments db_many_comments)))).
  split; [reflexivity|].
  split; [apply in_map, in_seq; lia|]. split; [reflexivity|].
  intros H. apply in_comment_ids in H. vm_compute in H. discriminate H.
Qed.

(** ** The average resolution time of the dashboard *)

(** The spec's subset: status [resolved] or [closed], and [resolved_at] set. *)
Definition terminal_with_resolution (t : Ticket.t) : bool :=
  (TicketStatus_beq (Ticket.status t) RESOLVED || TicketStatus_beq (Ticket.status t) CLOSED)
  && match Ticket.resolved_at t with Some _ => true | None => false end.

(** [(resolved_at - created_at)] in hours, as a double. *)
Definition resolution_hours (t : Ticket.t) : float :=
  match Ticket.resolved_at t with
  | Some r => hours (r - Ticket.created_at t)
  | None => S754_zero false
  end.

(** The mean of the resolution times in double precision: the sum from
    [0.0] in list order, divided by the count; [0.0] on no ticket. *)
Definition float_mean_resolution_hours (ts : list Ticket.t) : float :=
  match ts with
  | [] => S754_zero false
  | _ => fdiv (fold_left (fun acc t => fadd acc (resolution_hours t)) ts (S754_zero false))
              (float_of_int (Z.of_nat (length ts)))
  end.

Lemma total_hours_loop_sum (ts : list Ticket.t) :
  (forall t, In t ts -> Ticket.resolved_at t <> None) ->
  forall acc,
    total_hours_loop ts acc = Ok (fold_left (fun acc t => fadd acc (resolution_hours t)) ts acc).
Proof.
  induction ts as [|t ts IH]; intros Hset acc; cbn [total_hours_loop fold_left]; [reflexivity|].
  unfold resolution_hours at 2.
  destruct (Ticket.resolved_at t) as [r|] eqn:Er;
    [|exfalso; apply (Hset t); [left; reflexivity | exact Er]].
  apply IH. intros u Hu; apply Hset; right; exact Hu.
Qed.

(** C1 (amended): when every ticket with status [resolved] or [closed] has
    a [resolved_at], the dashboard of a staff actor reports as average
    resolution time, over the first 1000 (in store order) tickets with
    status [resolved] or [closed] and a [resolved_at], the mean of
    [resolved_at - created_at] in hours computed in double precision and
    rounded by Python's [round(., 2)]; 0 when there is no such ticket. *)
Theorem dashboard_avg_resolution (db : DB) (cu : CurrentUser.t)
  (Hrole : CurrentUser.role cu <> END_USER)
  (Hset : forall t, In t (tickets db) ->
          Ticket.status t = RESOLVED \/ Ticket.status t = CLOSED ->
          Ticket.resolved_at t <> None) :
  exists s,
    get_dashboard_stats cu db = (db, Ok s) /\
    DashboardStats.avg_resolution_time_hours s
    = round2 (float_mean_resolution_hours
                (to_list (filter terminal_with_resolution (tickets db)))).
Proof.
  assert (Hfilter : filter resolution_query (tickets db)
                    = filter terminal_with_resolution (tickets db)).
  { apply filter_ext_in. intros t Hin.
    unfold resolution_query, terminal_with_resolution, key_exists.
    destruct (Ticket.status t) eqn:Es; simpl; try reflexivity;
      destruct (Ticket.resolved_at t) eqn:Er; try reflexivity;
      exfalso; apply (Hset t Hin); [rewrite Es; tauto | exact Er | rewrite Es; tauto | exact Er]. }
  remember (to_list (filter terminal_with_resolution (tickets db))) as L eqn:EL.
  assert (HL : forall t, In t L -> Ticket.resolved_at t <> None).
  { intros t Ht. rewrite EL in Ht. apply in_to_list, filter_In in Ht. destruct Ht as [_ Hb].
    unfold terminal_with_resolution in Hb.
    destruct (Ticket.resolved_at t); [discriminate | rewrite andb_false_r in Hb; discriminate]. }
  unfold get_dashboard_stats. unfold bind at 1. rewrite (require_role_staff cu db Hrole).
  unfold bind, get_db. cbv beta iota zeta. rewrite Hfilter, <- EL.
  destruct L as [|t0 L'].
  - unfold avg_resolution_time, ret. cbv beta iota.
    eexists; split; reflexivity.
  - unfold avg_resolution_time. rewrite (total_hours_loop_sum (t0 :: L') HL).
    unfold ret. cbv beta iota.
    eexists; split; reflexivity.
Qed.

Lemma dashboard_avg_resolution_witness :
  exists s,
    get_dashboard_stats sam_cu db_one_resolved = (db_one_resolved, Ok s) /\
    DashboardStats.avg_resolution_time_hours s
    = round2 (float_mean_resolution_hours
                (to_list (filter terminal_with_resolution (tickets db_one_resolved)))).
Proof.
  exact (dashboard_avg_resolution db_one_resolved sam_cu ltac:(discriminate)
           ltac:(intros t [<-|[]] _; discriminate)).
Defined.

(** The double arithmetic shows in the result: a ticket resolved after
    9630 s (2.675 hours exactly) gets the average 2.67, the double nearest
    to [267 / 100], because the double nearest to 2.675 lies below it;
    half-even rounding of the exact 2.675 would give 2.68. *)
Lemma dashboard_avg_binary64 :
  (match get_dashboard_stats sam_cu db_slow with
   | (_, Ok s) => DashboardStats.avg_resolution_time_hours s
                  = fdiv (S754_finite false 267 0) (S754_finite false 100 0)
   | (_, Raise _) => False
   end) /\
  round_half_even ((9630000000 # 3600000000) * 100)%Q = 268%Z.
Proof. vm_compute. split; reflexivity. Qed.

(** C1, as stated ("the mean over exactly the tickets ...") fails past 1000
    such tickets: of 1001 resolved tickets, the only slow one is the 1001st,
    which [.to_list(1000)] leaves out; the dashboard reports 0 where the mean
    over all of them is 1 hour. *)
Lemma dashboard_avg_first_1000 :
  match get_dashboard_stats sam_cu db_many_resolved with
  | (_, Ok s) =>
      DashboardStats.avg_resolution_time_hours s = S754_zero false /\
      round2 (float_mean_resolution_hours
                (filter terminal_with_resolution (tickets db_many_resolved)))
      = float_of_int 1
  | (_, Raise _) => False
  end.
Proof. vm_compute. split; reflexivity. Qed.

(** The [$exists] test also selects a [closed] ticket whose [resolved_at]
    holds [null]: the loop then subtracts from [None] and the route fails. *)
Lemma dashboard_closed_without_resolution :
  snd (get_dashboard_stats sam_cu db_closed) = Raise TypeError.
Proof. vm_compute. reflexivity. Qed.

(** ** Registration, login and authentication *)

Lemma find_app_none {A} (f : A -> bool) (l1 l2 : list A) :
  find f l1 = None -> find f (l1 ++ l2) = find f l2.
Proof. induction l1 as [|a l1 IH]; simpl; [auto|]. destruct (f a); [discriminate | exact IH]. Qed.



Lemma truthy_nonempty (s : string) : s <> EmptyString -> truthy (Some s) = Some s.
Proof.
  intros H; simpl. destruct (String.eqb s EmptyString) eqn:E; [|reflexivity].
  apply String.eqb_eq in E; contradiction.
Qed.

Lemma find_none_filter {A} (f : A -> bool) (l : list A) : find f l = None -> filter f l = [].
Proof. induction l as [|a l IH]; simpl; [auto|]. destruct (f a); [discriminate | exact IH]. Qed.

(** The [User] object built by [register] (microsecond [created_at]). *)
Definition registered (hash_password : string -> string) (d : UserCreate.t) (new_id : string)
  (now : Z) : User.t :=
  User.mk new_id (UserCreate.email d) (UserCreate.name d) (UserCreate.role d) now true
    (hash_password (UserCreate.password d)).

Lemma register_fresh (hash_password : string -> string) (db : DB) (d : UserCreate.t)
  (new_id : string) (now : Z) :
  find_user_by_email (users db) (UserCreate.email d) = None ->
  register hash_password d new_id now db
  = (mkDB (users db ++ [store_user (registered hash_password d new_id now)]) (tickets db)
       (comments db),
     Ok (Payload (Some new_id) (UserCreate.role d),
         user_response (registered hash_password d new_id now))).
Proof. intros E. unfold register, register_lookup, bind. rewrite E. reflexivity. Qed.

(** [register] then [login]: when no user has the e-mail, registration
    stores an active user with the hashed password and the requested role,
    and a login with the same e-mail and password then succeeds, answering
    the same token payload and the user as stored, whose [created_at] is
    the registration's clock reading in whole milliseconds. *)
Theorem register_then_login (hash_password : string -> string) (db : DB) (d : UserCreate.t)
  (new_id : string) (now : Z)
  (Hfresh : find_user_by_email (users db) (UserCreate.email d) = None) :
  let user := registered hash_password d new_id now in
  let db' := mkDB (users db ++ [store_user user]) (tickets db) (comments db) in
  register hash_password d new_id now db
  = (db', Ok (Payload (Some new_id) (UserCreate.role d), user_response user)) /\
  login hash_password (UserLogin.mk (UserCreate.email d) (UserCreate.password d)) db'
  = (db', Ok (Payload (Some new_id) (UserCreate.role d), user_response (store_user user))) /\
  User.created_at (store_user user) = ms now.
Proof.
  cbv zeta. split; [apply register_fresh; exact Hfresh|]. split; [|reflexivity].
  unfold login; simpl. unfold find_user_by_email in *. rewrite find_app_none by exact Hfresh.
  simpl. rewrite String.eqb_refl. unfold verify_password. rewrite String.eqb_refl. reflexivity.
Qed.

Lemma register_then_login_witness :
  find_user_by_email (users db_vpn) "c@x.io"%string = None /\
  let d := UserCreate.mk "c@x.io" "pw" "Carol" END_USER in
  let user := registered (fun s => s) d "carol" 7500 in
  let db' := mkDB (users db_vpn ++ [store_user user]) (tickets db_vpn) (comments db_vpn) in
  register (fun s => s) d "carol" 7500 db_vpn
  = (db', Ok (Payload (Some "carol"%string) (UserCreate.role d), user_response user)) /\
  login (fun s => s) (UserLogin.mk (UserCreate.email d) (UserCreate.password d)) db'
  = (db', Ok (Payload (Some "carol"%string) (UserCreate.role d), user_response (store_user user))) /\
  User.created_at (store_user user) = ms 7500.
Proof.
  split; [reflexivity|].
  exact (register_then_login (fun s => s) db_vpn (UserCreate.mk "c@x.io" "pw" "Carol" END_USER)
           "carol" 7500 eq_refl).
Defined.

(** The token returned by [register] authenticates the new user (when the
    e-mail and the fresh id are unused and the id is non-empty), with the
    role chosen in the request body; [/auth/me] then answers the user as
    stored; and a self-registered [admin] or [team_lead] may list all
    users. *)
Theorem register_token_authenticates (hash_password : string -> string) (db : DB)
  (d : UserCreate.t) (new_id : string) (now : Z)
  (Hfresh : find_user_by_email (users db) (UserCreate.email d) = None)
  (Hid : find_user_by_id (users db) new_id = None)
  (Hne : new_id <> EmptyString) :
  let user := store_user (registered hash_password d new_id now) in
  let db' := mkDB (users db ++ [user]) (tickets db) (comments db) in
  let tok := Payload (Some new_id) (UserCreate.role d) in
  fst (register hash_password d new_id now db) = db' /\
  snd (register hash_password d new_id now db)
  = Ok (tok, user_response (registered hash_password d new_id now)) /\
  get_current_user tok db' = (db', Ok (CurrentUser.mk new_id (UserCreate.role d) user)) /\
  (current_user <- get_current_user tok ;; get_current_user_info current_user) db'
  = (db', Ok (user_response user)) /\
  (UserCreate.role d = ADMIN \/ UserCreate.role d = TEAM_LEAD ->
   serve tok GetUsers db' = (db', Ok (RUsers (map user_response (to_list (users db')))))).
Proof.
  intros user db' tok.
  assert (Hcu : get_current_user tok db' = (db', Ok (CurrentUser.mk new_id (UserCreate.role d) user))).
  { unfold tok, get_current_user. rewrite (truthy_nonempty new_id Hne).
    unfold bind, find_one_user; simpl. unfold find_user_by_id in *.
    rewrite find_app_none by exact Hid. simpl. rewrite String.eqb_refl. reflexivity. }
  rewrite (register_fresh hash_password db d new_id now Hfresh).
  split; [reflexivity|]. split; [reflexivity|]. split; [exact Hcu|]. split.
  - unfold bind at 1. rewrite Hcu. reflexivity.
  - intros Hrole. unfold serve, bind at 1. rewrite Hcu. simpl.
    unfold fmap, get_users, require_role, bind, get_db, ret; simpl.
    destruct Hrole as [-> | ->]; reflexivity.
Qed.

Lemma register_token_authenticates_witness :
  find_user_by_email (users db_vpn) "c@x.io"%string = None /\
  find_user_by_id (users db_vpn) "carol"%string = None /\
  "carol"%string <> EmptyString /\
  let d := UserCreate.mk "c@x.io" "pw" "Carol" ADMIN in
  let user := store_user (registered (fun s => s) d "carol" 7500) in
  let db' := mkDB (users db_vpn ++ [user]) (tickets db_vpn) (comments db_vpn) in
  let tok := Payload (Some "carol"%string) (UserCreate.role d) in
  fst (register (fun s => s) d "carol" 7500 db_vpn) = db' /\
  snd (register (fun s => s) d "carol" 7500 db_vpn)
  = Ok (tok, user_response (registered (fun s => s) d "carol" 7500)) /\
  get_current_user tok db' = (db', Ok (CurrentUser.mk "carol" (UserCreate.role d) user)) /\
  (current_user <- get_current_user tok ;; get_current_user_info current_user) db'
  = (db', Ok (user_response user)) /\
  (UserCreate.role d = ADMIN \/ UserCreate.role d = TEAM_LEAD ->
   serve tok GetUsers db' = (db', Ok (RUsers (map user_response (to_list (users db')))))).
Proof.
  split; [reflexivity|]. split; [reflexivity|]. split; [discriminate|].
  exact (register_token_authenticates (fun s => s) db_vpn
           (UserCreate.mk "c@x.io" "pw" "Carol" ADMIN) "carol" 7500 eq_refl eq_refl
           ltac:(discriminate)).
Defined.

(** Once [register] has run for an e-mail (successfully or not), a second
    registration with the same e-mail is refused with 400 "Email already
    registered" and changes nothing. *)
Theorem register_email_taken (hash_password : string -> string) (db : DB) (d d' : UserCreate.t)
  (new_id new_id' : string) (now now' : Z)
  (Hsame : UserCreate.email d' = UserCreate.email d) :
  let db' := fst (register hash_password d new_id now db) in
  register hash_password d' new_id' now' db'
  = (db', Raise (HTTPException 400 "Email already registered")).
Proof.
  cbv zeta.
  destruct (find_user_by_email (users db) (UserCreate.email d)) as [u|] eqn:E.
  - unfold register at 2, register_lookup, bind. rewrite E. simpl.
    unfold register, register_lookup, bind. rewrite Hsame, E. reflexivity.
  - rewrite (register_fresh hash_password db d new_id now E). simpl.
    unfold register, register_lookup, bind. rewrite Hsame.
    unfold find_user_by_email in *. cbn [users]. rewrite find_app_none by exact E.
    simpl. rewrite String.eqb_refl. reflexivity.
Qed.

Lemma register_email_taken_witness :
  UserCreate.email (UserCreate.mk "a@x.io" "x" "Eve" ADMIN)
  = UserCreate.email (UserCreate.mk "a@x.io" "pw" "Alice" END_USER) /\
  let db' := fst (register (fun s => s) (UserCreate.mk "a@x.io" "pw" "Alice" END_USER) "n1" 1 db_vpn) in
  register (fun s => s) (UserCreate.mk "a@x.io" "x" "Eve" ADMIN) "n2" 2 db'
  = (db', Raise (HTTPException 400 "Email already registered")).
Proof.
  split; [reflexivity|].
  exact (register_email_taken (fun s => s) db_vpn (UserCreate.mk "a@x.io" "pw" "Alice" END_USER)
           (UserCreate.mk "a@x.io" "x" "Eve" ADMIN) "n1" "n2" 1 2 eq_refl).
Defined.

(** [register] checks the e-mail and inserts the user in two [await]s, with
    no unique index behind the check: when two registrations for the same
    unused e-mail interleave (both checks, then both inserts), both succeed
    and the store holds two users with that e-mail. *)
Theorem register_race_duplicate_email (hash_password : string -> string) (db : DB)
  (d1 d2 : UserCreate.t) (id1 id2 : string) (now1 now2 : Z)
  (Hsame : UserCreate.email d2 = UserCreate.email d1)
  (Hfresh : find_user_by_email (users db) (UserCreate.email d1) = None) :
  register_lookup d1 db = (db, Ok tt) /\
  register_lookup d2 db = (db, Ok tt) /\
  exists db1 db2 a1 a2,
    register_insert hash_password d1 id1 now1 db = (db1, Ok a1) /\
    register_insert hash_password d2 id2 now2 db1 = (db2, Ok a2) /\
    length (filter (fun u => String.eqb (User.email u) (UserCreate.email d1)) (users db2))
    = 2%nat.
Proof.
  unfold register_lookup. rewrite Hsame, Hfresh. split; [reflexivity|]. split; [reflexivity|].
  do 4 eexists. split; [reflexivity|]. split; [reflexivity|].
  simpl. rewrite <- app_assoc, filter_app.
  unfold find_user_by_email in Hfresh. rewrite (find_none_filter _ _ Hfresh). simpl.
  rewrite Hsame, String.eqb_refl. reflexivity.
Qed.

Lemma register_race_duplicate_email_witness :
  UserCreate.email (UserCreate.mk "c@x.io" "x" "Eve" ADMIN)
  = UserCreate.email (UserCreate.mk "c@x.io" "pw" "Carol" END_USER) /\
  find_user_by_email (users db_vpn) "c@x.io" = None /\
  exists db1 db2 a1 a2,
    register_insert (fun s => s) (UserCreate.mk "c@x.io" "pw" "Carol" END_USER) "n1" 1 db_vpn
    = (db1, Ok a1) /\
    register_insert (fun s => s) (UserCreate.mk "c@x.io" "x" "Eve" ADMIN) "n2" 2 db1
    = (db2, Ok a2) /\
    length (filter (fun u => String.eqb (User.email u) "c@x.io") (users db2)) = 2%nat.
Proof.
  split; [reflexivity|]. split; [reflexivity|].
  exact (proj2 (proj2 (register_race_duplicate_email (fun s => s) db_vpn
                         (UserCreate.mk "c@x.io" "pw" "Carol" END_USER)
                         (UserCreate.mk "c@x.io" "x" "Eve" ADMIN) "n1" "n2" 1 2
                         eq_refl eq_refl))).
Defined.

(** [login] with an unknown e-mail or a wrong password answers the same
    401 "Invalid credentials" (whether the account is active or not) and
    changes nothing. *)
Theorem login_rejects_bad_password (hash_password : string -> string) (db : DB)
  (credentials : UserLogin.t)
  (Hbad : forall u, find_user_by_email (users db) (UserLogin.email credentials) = Some u ->
          hash_password (UserLogin.password credentials) <> User.password u) :
  login hash_password credentials db = (db, Raise (HTTPException 401 "Invalid credentials")).
Proof.
  unfold login.
  destruct (find_user_by_email (users db) (UserLogin.email credentials)) as [u|] eqn:E;
    [|reflexivity].
  unfold verify_password.
  destruct (String.eqb (hash_password (UserLogin.password credentials)) (User.password u)) eqn:P.
  - apply String.eqb_eq in P. exfalso; exact (Hbad u eq_refl P).
  - reflexivity.
Qed.

Lemma login_rejects_bad_password_witness :
  (forall u, find_user_by_email (users db_ivan) "i@x.io" = Some u -> "x"%string <> User.password u) /\
  login (fun s => s) (UserLogin.mk "i@x.io" "x") db_ivan
  = (db_ivan, Raise (HTTPException 401 "Invalid credentials")).
Proof.
  assert (H : forall u, find_user_by_email (users db_ivan) "i@x.io" = Some u ->
              "x"%string <> User.password u).
  { intros u E. vm_compute in E. injection E as <-. discriminate. }
  split; [exact H|].
  exact (login_rejects_bad_password (fun s => s) db_ivan (UserLogin.mk "i@x.io" "x") H).
Defined.

(** [get_current_user] never changes the store; it succeeds exactly on a
    token with a non-empty user id of a stored user, taking the role from
    the token, not from the stored user; an expired token is the 401
    "Token expired", and every other failure (invalid token, missing user
    id, unknown user) is an [AttributeError] (a 500), not a 401. *)
Theorem get_current_user_outcome (tok : Decoded) (db : DB) :
  fst (get_current_user tok db) = db /\
  (forall cu, snd (get_current_user tok db) = Ok cu <->
     tok = Payload (Some (CurrentUser.id cu)) (CurrentUser.role cu) /\
     CurrentUser.id cu <> EmptyString /\
     find_user_by_id (users db) (CurrentUser.id cu) = Some (CurrentUser.user_data cu)) /\
  (forall e, snd (get_current_user tok db) = Raise e ->
     (tok = ExpiredSignature /\ e = HTTPException 401 "Token expired") \/
     (tok <> ExpiredSignature /\ e = AttributeError)).
Proof.
  destruct tok as [| |[uid|] r]; unfold get_current_user, jwt_except, raise.
  - split; [reflexivity|]. split.
    + intros cu; split; [discriminate | intros [E _]; discriminate].
    + intros e E; injection E as <-; left; auto.
  - split; [reflexivity|]. split.
    + intros cu; split; [discriminate | intros [E _]; discriminate].
    + intros e E; injection E as <-; right; split; [discriminate | reflexivity].
  - unfold truthy.
    destruct (String.eqb uid EmptyString) eqn:Eu.
    + apply String.eqb_eq in Eu; subst uid.
      split; [reflexivity|]. split.
      * intros cu; split; [discriminate|].
        intros [E [Hne _]]. injection E as E1 _. exfalso; apply Hne; symmetry; exact E1.
      * intros e E; injection E as <-; right; split; [discriminate | reflexivity].
    + unfold bind, find_one_user; simpl.
      destruct (find_user_by_id (users db) uid) as [u|] eqn:Fu; simpl.
      * split; [reflexivity|]. split; [|discriminate].
        intros [i ro ud]; simpl; split.
        -- intros E; injection E as <- <- <-. split; [reflexivity|]. split; [|exact Fu].
           intros ->. rewrite String.eqb_refl in Eu. discriminate.
        -- intros [E [_ F]]. injection E as <- <-. rewrite Fu in F. injection F as <-. reflexivity.
      * split; [reflexivity|]. split.
        -- intros cu; split; [discriminate|].
           intros [E [_ F]]. injection E as E1 _. rewrite <- E1, Fu in F. discriminate.
        -- intros e E; injection E as <-; right; split; [discriminate | reflexivity].
  - split; [reflexivity|]. split.
    + intros cu; split; [discriminate | intros [E _]; discriminate].
    + intros e E; injection E as <-; right; split; [discriminate | reflexivity].
Qed.

(** ** Tickets, comments, users and the dashboard *)

(** [POST /tickets] with the token of a stored user (any role): a title of
    at most 120 characters (code points) appends an open, unassigned ticket
    created by the token's user (its dates stored in whole milliseconds) and
    answers it with the creator's stored name; a longer title is a 422 and
    nothing is stored. *)
Theorem serve_create_ticket (db : DB) (uid : string) (token_role : UserRole) (u : User.t)
  (d : TicketCreate.t) (new_id : string) (now_created now_updated : Z)
  (Hne : uid <> EmptyString) (Hu : find_user_by_id (users db) uid = Some u) :
  let t := Ticket.mk new_id (TicketCreate.title d) (TicketCreate.description d)
             (TicketCreate.priority d) (TicketCreate.category d) OPEN uid None
             now_created now_updated None None in
  serve (Payload (Some uid) token_role) (CreateTicket d new_id now_created now_updated) db
  = if Nat.leb (char_length (TicketCreate.title d)) 120
    then (mkDB (users db) (tickets db ++ [store_ticket t]) (comments db),
          Ok (RTicket (TicketResponse.mk t (User.name u) None)))
    else (db, Raise (HTTPException 422 "string_too_long")).
Proof.
  intros t. unfold serve, get_current_user. rewrite (truthy_nonempty uid Hne).
  unfold bind at 1 2, find_one_user at 1; simpl. rewrite Hu. simpl.
  unfold fmap, create_ticket, title_ok.
  destruct (Nat.leb (char_length (TicketCreate.title d)) 120); simpl; [|reflexivity].
  unfold bind, insert_ticket, find_one_user; simpl. rewrite Hu. reflexivity.
Qed.

Lemma serve_create_ticket_witness :
  "alice"%string <> EmptyString /\ find_user_by_id (users db0) "alice" = Some alice /\
  let t := Ticket.mk "T9" (TicketCreate.title printer) (TicketCreate.description printer)
             (TicketCreate.priority printer) (TicketCreate.category printer) OPEN "alice" None
             10 11 None None in
  serve (Payload (Some "alice"%string) END_USER) (CreateTicket printer "T9" 10 11) db0
  = if Nat.leb (char_length (TicketCreate.title printer)) 120
    then (mkDB (users db0) (tickets db0 ++ [store_ticket t]) (comments db0),
          Ok (RTicket (TicketResponse.mk t (User.name alice) None)))
    else (db0, Raise (HTTPException 422 "string_too_long")).
Proof.
  split; [discriminate|]. split; [reflexivity|].
  exact (serve_create_ticket db0 "alice" END_USER alice printer "T9" 10 11
           ltac:(discriminate) eq_refl).
Defined.

(** A staff [PUT /tickets/{id}] with a title over 120 characters is a 422
    (checked before the ticket lookup); with a valid body on a missing
    ticket it is a 404; in both cases the store is unchanged. *)
Theorem update_ticket_rejects (db : DB) (cu : CurrentUser.t) (ticket_id : string)
  (upd : TicketUpdate.t) (now_updated now_status : Z)
  (Hstaff : CurrentUser.role cu <> END_USER) :
  (update_title_ok upd = false ->
   update_ticket ticket_id upd now_updated now_status cu db
   = (db, Raise (HTTPException 422 "string_too_long"))) /\
  (update_title_ok upd = true -> find_ticket (tickets db) ticket_id = None ->
   update_ticket ticket_id upd now_updated now_status cu db
   = (db, Raise (HTTPException 404 "Ticket not found"))).
Proof.
  split; intros Hv; unfold update_ticket; unfold bind at 1;
    rewrite (require_role_staff cu db Hstaff), Hv; [reflexivity|].
  intros Hnone. simpl. unfold bind, find_one_ticket; simpl. rewrite Hnone. reflexivity.
Qed.

Lemma update_ticket_rejects_witness :
  CurrentUser.role sam_cu <> END_USER /\
  (update_title_ok (set_status CLOSED) = false ->
   update_ticket "T404" (set_status CLOSED) 1 2 sam_cu db_vpn
   = (db_vpn, Raise (HTTPException 422 "string_too_long"))) /\
  (update_title_ok (set_status CLOSED) = true -> find_ticket (tickets db_vpn) "T404" = None ->
   update_ticket "T404" (set_status CLOSED) 1 2 sam_cu db_vpn
   = (db_vpn, Raise (HTTPException 404 "Ticket not found"))).
Proof.
  split; [discriminate|].
  exact (update_ticket_rejects db_vpn sam_cu "T404" (set_status CLOSED) 1 2 ltac:(discriminate)).
Defined.

Lemma update_first_shape (tid : string) (ops : list SetOp) (ts : list Ticket.t) :
  (find_ticket ts tid = None /\ update_first tid ops ts = ts) \/
  exists pre t post,
    ts = pre ++ t :: post /\ Ticket.id t = tid /\ find_ticket pre tid = None /\
    update_first tid ops ts = pre ++ mongo_set t ops :: post.
Proof.
  unfold find_ticket; induction ts as [|x ts IH]; simpl; [left; auto|].
  destruct (String.eqb (Ticket.id x) tid) eqn:E; simpl.
  - right. exists [], x, ts. apply String.eqb_eq in E. auto.
  - destruct IH as [[H1 H2] | [pre [t [post [H1 [H2 [H3 H4]]]]]]].
    + left. rewrite H2. auto.
    + right. exists (x :: pre), t, post. simpl. rewrite E, H4, H1. auto.
Qed.

(** [update_ticket] changes at most one document: the first ticket with
    the id gets the [$set] (its dates in whole milliseconds); every other ticket (later ones with the same id
    included), the users and the comments are unchanged. *)
Theorem update_ticket_touches_one (db : DB) (cu : CurrentUser.t) (ticket_id : string)
  (upd : TicketUpdate.t) (now_updated now_status : Z) :
  let db' := fst (update_ticket ticket_id upd now_updated now_status cu db) in
  users db' = users db /\ comments db' = comments db /\
  (tickets db' = tickets db \/
   exists pre t post,
     tickets db = pre ++ t :: post /\ Ticket.id t = ticket_id /\
     find_ticket pre ticket_id = None /\
     tickets db' = pre ++ mongo_set t (update_data upd (ms now_updated) (ms now_status)) :: post).
Proof.
  simpl. destruct (update_ticket_effect db cu ticket_id upd now_updated now_status) as [E|E];
    rewrite E; simpl; [auto|].
  split; [reflexivity|]. split; [reflexivity|].
  destruct (update_first_shape ticket_id (update_data upd (ms now_updated) (ms now_status))
              (tickets db))
    as [[_ H] | H]; [left; exact H | right; exact H].
Qed.

(** After a successful [add_comment], the store has exactly the new
    comment appended, its date in whole milliseconds (users and tickets
    unchanged), the comment records the ticket, the author's id and the
    author's stored name, and when at most 1000 comments are visible to a
    viewer, the viewer's [get_comments] lists the stored comment exactly
    when the viewer is staff or the comment is not internal. *)
Theorem added_comment_listed (db db' : DB) (cu viewer : CurrentUser.t) (ticket_id : string)
  (d : CommentCreate.t) (new_id : string) (now : Z) (c : Comment.t)
  (Hadd : add_comment ticket_id d new_id now cu db = (db', Ok c))
  (Hsmall : (length (filter (comments_query ticket_id viewer) (comments db')) <= 1000)%nat) :
  users db' = users db /\ tickets db' = tickets db /\
  comments db' = comments db ++ [store_comment c] /\
  Comment.ticket_id c = ticket_id /\ Comment.user_id c = CurrentUser.id cu /\
  Comment.user_name c = User.name (CurrentUser.user_data cu) /\
  exists l, get_comments ticket_id viewer db' = (db', Ok l) /\
    (In (store_comment c) l <->
     (CurrentUser.role viewer = END_USER -> Comment.is_internal c = false)).
Proof.
  unfold add_comment, bind, find_one_ticket in Hadd; simpl in Hadd.
  destruct (find_ticket (tickets db) ticket_id) as [t|] eqn:Ft; [|discriminate].
  destruct (CommentCreate.is_internal d && UserRole_beq (CurrentUser.role cu) END_USER);
    [discriminate|].
  simpl in Hadd. injection Hadd as <- <-. simpl.
  split; [reflexivity|]. split; [reflexivity|]. split; [reflexivity|].
  split; [reflexivity|]. split; [reflexivity|]. split; [reflexivity|].
  set (c := Comment.mk new_id ticket_id (CurrentUser.id cu) (User.name (CurrentUser.user_data cu))
              (CommentCreate.content d) (CommentCreate.is_internal d) (ms now)) in *.
  set (l0 := comments db ++ [c]) in *.
  exists (to_list (sort_by older (filter (comments_query ticket_id viewer) l0))).
  destruct (listing_spec Comment.t older
              (fun a b => (Comment.created_at a <= Comment.created_at b)%Z)
              ltac:(intros x y E; unfold older in E; apply Z.ltb_ge in E; exact E)
              ltac:(intros x y E; unfold older in E; apply Z.ltb_lt in E; cbv beta; lia)
              ltac:(intros x y z; cbv beta; lia)
              (comments_query ticket_id viewer) l0) as [_ [_ [Hsub [Hall _]]]].
  split.
  { unfold get_comments, bind, find_one_ticket; simpl. rewrite Ft. reflexivity. }
  split.
  - intros Hin. destruct (Hsub c Hin) as [_ Hq]. apply comments_query_iff in Hq. apply Hq.
  - intros Hvis. apply Hall; [exact Hsmall | apply in_or_app; right; left; reflexivity|].
    apply comments_query_iff. split; [reflexivity | exact Hvis].
Qed.

Lemma added_comment_listed_witness :
  let c := Comment.mk "c1" "T2" "sam" "Sam" "see logs" true 9500 in
  let db' := mkDB (users db_vpn) (tickets db_vpn) [store_comment c] in
  add_comment "T2" (CommentCreate.mk "see logs" true) "c1" 9500 sam_cu db_vpn = (db', Ok c) /\
  (length (filter (comments_query "T2" alice_cu) (comments db')) <= 1000)%nat /\
  users db' = users db_vpn /\ tickets db' = tickets db_vpn /\
  comments db' = comments db_vpn ++ [store_comment c] /\
  Comment.ticket_id c = "T2"%string /\ Comment.user_id c = CurrentUser.id sam_cu /\
  Comment.user_name c = User.name (CurrentUser.user_data sam_cu) /\
  exists l, get_comments "T2" alice_cu db' = (db', Ok l) /\
    (In (store_comment c) l <->
     (CurrentUser.role alice_cu = END_USER -> Comment.is_internal c = false)).
Proof.
  cbv zeta.
  assert (H1 : add_comment "T2" (CommentCreate.mk "see logs" true) "c1" 9500 sam_cu db_vpn
               = (mkDB (users db_vpn) (tickets db_vpn)
                    [store_comment (Comment.mk "c1" "T2" "sam" "Sam" "see logs" true 9500)],
                  Ok (Comment.mk "c1" "T2" "sam" "Sam" "see logs" true 9500))) by reflexivity.
  assert (H2 : (length (filter (comments_query "T2" alice_cu)
                  [store_comment (Comment.mk "c1" "T2" "sam" "Sam" "see logs" true 9500)])
                <= 1000)%nat)
    by (simpl; lia).
  split; [exact H1|]. split; [exact H2|].
  exact (added_comment_listed db_vpn _ sam_cu alice_cu "T2" (CommentCreate.mk "see logs" true)
           "c1" 9500 _ H1 H2).
Defined.






(** [GET /users]: an [admin] or [team_lead] gets the first 1000 users
    without passwords; an [end_user] or a [support_agent] gets 403; the
    store is unchanged. *)
Theorem get_users_roles (db : DB) (cu : CurrentUser.t) :
  get_users cu db
  = match CurrentUser.role cu with
    | ADMIN | TEAM_LEAD => (db, Ok (map user_response (firstn 1000 (users db))))
    | END_USER | SUPPORT_AGENT => (db, Raise (HTTPException 403 "Insufficient permissions"))
    end.
Proof.
  unfold get_users, bind, require_role, get_db, ret, raise, to_list.
  destruct (CurrentUser.role cu); reflexivity.
Qed.

Lemma loop_raises (ts : list Ticket.t) (t : Ticket.t) :
  In t ts -> Ticket.resolved_at t = None -> forall acc, total_hours_loop ts acc = Raise TypeError.
Proof.
  induction ts as [|x ts IH]; simpl; [contradiction|].
  intros [<- | Hin] Hn acc.
  - rewrite Hn. reflexivity.
  - destruct (Ticket.resolved_at x); [apply IH; assumption | reflexivity].
Qed.

(** Closing a ticket that was never resolved (status set to [closed] by a
    staff update) leaves [resolved_at] null, so while at most 1000 tickets
    are resolved or closed, every later [get_dashboard_stats] by staff fails
    with a [TypeError] (a 500). *)
Theorem closing_unresolved_breaks_dashboard (db : DB) (cu staff : CurrentUser.t)
  (ticket_id : string) (upd : TicketUpdate.t) (now_updated now_status : Z) (t : Ticket.t)
  (Hcu : CurrentUser.role cu <> END_USER) (Hstaff : CurrentUser.role staff <> END_USER)
  (Hval : update_title_ok upd = true) (Hclose : TicketUpdate.status upd = Some CLOSED)
  (Ht : find_ticket (tickets db) ticket_id = Some t) (Hnr : Ticket.resolved_at t = None)
  (Hsmall : (length (filter resolution_query
               (tickets (fst (update_ticket ticket_id upd now_updated now_status cu db))))
             <= 1000)%nat) :
  let db' := fst (update_ticket ticket_id upd now_updated now_status cu db) in
  get_dashboard_stats staff db' = (db', Raise TypeError).
Proof.
  destruct (update_ticket_ok db cu ticket_id upd now_updated now_status t Hcu Hval Ht)
    as [r [E _]].
  rewrite E in *. simpl in *.
  set (ts' := update_first ticket_id (update_data upd (ms now_updated) (ms now_status))
                (tickets db)) in *.
  set (t' := mongo_set t (update_data upd (ms now_updated) (ms now_status))).
  assert (Hin : In t' ts').
  { apply (find_some _ _ (find_update_first ticket_id
                            (update_data upd (ms now_updated) (ms now_status))
                            (tickets db) t Ht)). }
  assert (Hq : resolution_query t' = true /\ Ticket.resolved_at t' = None).
  { unfold t'. rewrite mongo_set_update_data, Hclose. simpl. rewrite Hnr. split; reflexivity. }
  destruct Hq as [Hq Hn].
  assert (Hin' : In t' (filter resolution_query ts')) by (apply filter_In; auto).
  unfold get_dashboard_stats. unfold bind at 1. rewrite (require_role_staff staff _ Hstaff).
  simpl. unfold bind, get_db; simpl. rewrite (to_list_small _ _ Hsmall).
  destruct (filter resolution_query ts') as [|x l] eqn:Ef; [contradiction|].
  unfold avg_resolution_time. rewrite (loop_raises (x :: l) t' Hin' Hn). reflexivity.
Qed.

Lemma closing_unresolved_breaks_dashboard_witness :
  CurrentUser.role sam_cu <> END_USER /\ update_title_ok (set_status CLOSED) = true /\
  TicketUpdate.status (set_status CLOSED) = Some CLOSED /\
  find_ticket (tickets db_vpn) "T2" = Some vpn_ticket /\ Ticket.resolved_at vpn_ticket = None /\
  (length (filter resolution_query
     (tickets (fst (update_ticket "T2" (set_status CLOSED) 7 8 sam_cu db_vpn)))) <= 1000)%nat /\
  let db' := fst (update_ticket "T2" (set_status CLOSED) 7 8 sam_cu db_vpn) in
  get_dashboard_stats sam_cu db' = (db', Raise TypeError).
Proof.
  assert (Hs : (length (filter resolution_query
     (tickets (fst (update_ticket "T2" (set_status CLOSED) 7 8 sam_cu db_vpn)))) <= 1000)%nat)
    by (apply Nat.leb_le; vm_compute; reflexivity).
  split; [discriminate|]. split; [reflexivity|]. split; [reflexivity|].
  split; [reflexivity|]. split; [reflexivity|]. split; [exact Hs|].
  exact (closing_unresolved_breaks_dashboard db_vpn sam_cu sam_cu "T2" (set_status CLOSED) 7 8
           vpn_ticket ltac:(discriminate) ltac:(discriminate) eq_refl eq_refl eq_refl eq_refl Hs).
Defined.

(** ** History of the store under the routes *)

(** A later version of a stored ticket: the stamps are kept, and the creator
    and creation date are unchanged. *)
Definition ticket_later (t t' : Ticket.t) : Prop :=
  stamps_kept t t' /\ Ticket.created_by t' = Ticket.created_by t /\
  Ticket.created_at t' = Ticket.created_at t.

(** [db'] is a later state of [db]: same users, each ticket followed by a
    later version of it (new tickets after them), comments only appended. *)
Definition store_later (db db' : DB) : Prop :=
  users db' = users db /\
  (exists l1 l2, tickets db' = l1 ++ l2 /\ Forall2 ticket_later (tickets db) l1) /\
  (exists cs, comments db' = comments db ++ cs).

Lemma ticket_later_refl (t : Ticket.t) : ticket_later t t.
Proof. unfold ticket_later; auto using stamps_kept_refl. Qed.

Lemma ticket_later_trans (a b c : Ticket.t) :
  ticket_later a b -> ticket_later b c -> ticket_later a c.
Proof.
  unfold ticket_later; intros [H1 [H2 H3]] [H4 [H5 H6]].
  split; [eapply stamps_kept_trans; eauto | split; congruence].
Qed.

Lemma mongo_set_later (ops : list SetOp) : forall t, ticket_later t (mongo_set t ops).
Proof.
  unfold mongo_set; induction ops as [|o ops IH]; intros t; simpl; [apply ticket_later_refl|].
  eapply ticket_later_trans; [|apply IH].
  split; [apply set_field_stamps|]. destruct t, o; split; reflexivity.
Qed.

Lemma Forall2_later_refl (ts : list Ticket.t) : Forall2 ticket_later ts ts.
Proof. induction ts; constructor; auto using ticket_later_refl. Qed.

Lemma Forall2_later_trans (l1 : list Ticket.t) :
  forall l2 l3, Forall2 ticket_later l1 l2 -> Forall2 ticket_later l2 l3 ->
  Forall2 ticket_later l1 l3.
Proof.
  induction l1 as [|a l1 IH]; intros l2 l3 H12 H23; inversion H12; subst;
    inversion H23; subst; constructor; eauto using ticket_later_trans.
Qed.

Lemma update_first_later (tid : string) (ops : list SetOp) (ts : list Ticket.t) :
  Forall2 ticket_later ts (update_first tid ops ts).
Proof.
  induction ts as [|t ts IH]; simpl; [constructor|].
  destruct (String.eqb (Ticket.id t) tid); constructor;
    auto using mongo_set_later, ticket_later_refl, Forall2_later_refl.
Qed.

Lemma store_later_refl (db : DB) : store_later db db.
Proof.
  split; [reflexivity|]. split.
  - exists (tickets db), []. rewrite app_nil_r. split; [reflexivity | apply Forall2_later_refl].
  - exists []. rewrite app_nil_r. reflexivity.
Qed.

Lemma store_later_trans (a b c : DB) : store_later a b -> store_later b c -> store_later a c.
Proof.
  intros [U1 [[l1 [l2 [T1 F1]]] [cs1 C1]]] [U2 [[m1 [m2 [T2 F2]]] [cs2 C2]]].
  split; [congruence|]. split.
  - rewrite T1 in F2. apply Forall2_app_inv_l in F2 as [m1a [m1b [Fa [Fb Em]]]].
    exists m1a, (m1b ++ m2). split.
    + rewrite T2, Em, app_assoc. reflexivity.
    + eapply Forall2_later_trans; eauto.
  - exists (cs1 ++ cs2). rewrite C2, C1, app_assoc. reflexivity.
Qed.

Lemma store_later_ticket (db : DB) (t : Ticket.t) :
  store_later db (mkDB (users db) (tickets db ++ [t]) (comments db)).
Proof.
  split; [reflexivity|]. split.
  - exists (tickets db), [t]. split; [reflexivity | apply Forall2_later_refl].
  - exists []. rewrite app_nil_r. reflexivity.
Qed.

Lemma store_later_comment (db : DB) (c : Comment.t) :
  store_later db (mkDB (users db) (tickets db) (comments db ++ [c])).
Proof.
  split; [reflexivity|]. split.
  - exists (tickets db), []. rewrite app_nil_r. split; [reflexivity | apply Forall2_later_refl].
  - exists [c]. reflexivity.
Qed.

Lemma fmap_fst {A B} (f : A -> B) (m : M A) (db : DB) : fst (fmap f m db) = fst (m db).
Proof. unfold fmap, bind, ret. destruct (m db) as [d [a|e]]; reflexivity. Qed.

Lemma get_current_user_store (tok : Decoded) (db : DB) :
  exists r, get_current_user tok db = (db, r).
Proof.
  destruct tok as [| |uid r]; [eexists; reflexivity | eexists; reflexivity|].
  unfold get_current_user. destruct (truthy uid) as [u|]; [|eexists; reflexivity].
  unfold bind, find_one_user; simpl.
  destruct (find_user_by_id (users db) u); eexists; reflexivity.
Qed.

Lemma create_ticket_store (d : TicketCreate.t) (cu : CurrentUser.t) (i : string) (t1 t2 : Z)
  (db : DB) :
  fst (create_ticket d cu i t1 t2 db) = db \/
  exists t, fst (create_ticket d cu i t1 t2 db) = mkDB (users db) (tickets db ++ [t]) (comments db).
Proof.
  unfold create_ticket. destruct (negb (title_ok (TicketCreate.title d))); [left; reflexivity|].
  right. unfold bind, insert_ticket, find_one_user; simpl.
  destruct (find_user_by_id (users db) (CurrentUser.id cu)); simpl; eexists; reflexivity.
Qed.

Lemma add_comment_store (tid : string) (d : CommentCreate.t) (i : string) (now : Z)
  (cu : CurrentUser.t) (db : DB) :
  fst (add_comment tid d i now cu db) = db \/
  exists c, fst (add_comment tid d i now cu db) = mkDB (users db) (tickets db) (comments db ++ [c]).
Proof.
  unfold add_comment, bind, find_one_ticket; simpl.
  destruct (find_ticket (tickets db) tid); simpl; [|left; reflexivity].
  destruct (CommentCreate.is_internal d && UserRole_beq (CurrentUser.role cu) END_USER);
    simpl; [left; reflexivity|].
  right; eexists; reflexivity.
Qed.

Lemma get_tickets_store s c p a cu db : fst (get_tickets s c p a cu db) = db.
Proof. reflexivity. Qed.

Lemma get_ticket_store tid cu db : fst (get_ticket tid cu db) = db.
Proof.
  unfold get_ticket, bind, find_one_ticket; simpl.
  destruct (find_ticket (tickets db) tid) as [t|]; simpl; [|reflexivity].
  destruct (_ && _); [reflexivity|].
  destruct (respond_ok t db) as [r [E _]]. rewrite E. reflexivity.
Qed.

Lemma get_comments_store tid cu db : fst (get_comments tid cu db) = db.
Proof.
  unfold get_comments, bind, find_one_ticket; simpl.
  destruct (find_ticket (tickets db) tid); reflexivity.
Qed.

Lemma get_users_store cu db : fst (get_users cu db) = db.
Proof.
  unfold get_users, bind, require_role.
  destruct (existsb _ _); reflexivity.
Qed.

Lemma get_dashboard_stats_store cu db : fst (get_dashboard_stats cu db) = db.
Proof.
  unfold get_dashboard_stats, bind, require_role.
  destruct (existsb _ _); [|reflexivity]. simpl.
  destruct (avg_resolution_time _); reflexivity.
Qed.

Lemma handle_later (cu : CurrentUser.t) (req : Request) (db : DB) :
  store_later db (fst (handle cu req db)).
Proof.
  destruct req; unfold handle; rewrite fmap_fst.
  - destruct (create_ticket_store ticket_data cu new_id now_created now_updated db) as [E|[t E]];
      rewrite E; [apply store_later_refl | apply store_later_ticket].
  - rewrite get_tickets_store; apply store_later_refl.
  - rewrite get_ticket_store; apply store_later_refl.
  - destruct (update_ticket_effect db cu ticket_id ticket_update now_updated now_status) as [E|E];
      rewrite E; [apply store_later_refl|].
    split; [reflexivity|]. split.
    + eexists _, []. rewrite app_nil_r. split; [reflexivity | apply update_first_later].
    + exists []. rewrite app_nil_r. reflexivity.
  - destruct (add_comment_store ticket_id comment_data new_id now cu db) as [E|[c E]];
      rewrite E; [apply store_later_refl | apply store_later_comment].
  - rewrite get_comments_store; apply store_later_refl.
  - rewrite get_users_store; apply store_later_refl.
  - rewrite get_dashboard_stats_store; apply store_later_refl.
Qed.

Lemma serve_later (tok : Decoded) (req : Request) (db : DB) :
  store_later db (fst (serve tok req db)).
Proof.
  unfold serve, bind. destruct (get_current_user_store tok db) as [r E]. rewrite E.
  destruct r as [cu|e]; [apply handle_later | apply store_later_refl].
Qed.

Lemma serve_all_later (reqs : list (Decoded * Request)) :
  forall db, store_later db (serve_all reqs db).
Proof.
  induction reqs as [|[tok req] reqs IH]; intros db; simpl; [apply store_later_refl|].
  eapply store_later_trans; [apply serve_later | apply IH].
Qed.

Lemma find_later (l l1 l2 : list Ticket.t) (tid : string) (t : Ticket.t) :
  Forall2 ticket_later l l1 -> find_ticket l tid = Some t ->
  exists t', find_ticket (l1 ++ l2) tid = Some t' /\ ticket_later t t'.
Proof.
  unfold find_ticket; intros H; revert t; induction H as [|x x' l l1 Hx _ IH]; intros t;
    simpl; [discriminate|].
  destruct Hx as [[Hid Hs] Hrest]. rewrite Hid.
  destruct (String.eqb (Ticket.id x) tid).
  - intros E; injection E as <-. exists x'; split; [reflexivity | split; [split|]; auto].
  - apply IH.
Qed.

(** Over any sequence of authenticated requests: the users are unchanged,
    comments are only appended, no ticket is removed, and a ticket found by
    id is still found with the same creator and creation date and with a
    set [resolved_at] / [closed_at] still set. *)
Theorem served_requests_keep_history (reqs : list (Decoded * Request)) (db : DB) :
  let db' := serve_all reqs db in
  users db' = users db /\
  (exists cs, comments db' = comments db ++ cs) /\
  (length (tickets db) <= length (tickets db'))%nat /\
  (forall tid t, find_ticket (tickets db) tid = Some t ->
     exists t', find_ticket (tickets db') tid = Some t' /\
       Ticket.created_by t' = Ticket.created_by t /\ Ticket.created_at t' = Ticket.created_at t /\
       (Ticket.resolved_at t <> None -> Ticket.resolved_at t' <> None) /\
       (Ticket.closed_at t <> None -> Ticket.closed_at t' <> None)).
Proof.
  simpl. destruct (serve_all_later reqs db) as [U [[l1 [l2 [T F]]] C]].
  split; [exact U|]. split; [exact C|]. split.
  - rewrite T, length_app, <- (Forall2_length F). lia.
  - intros tid t Ht. rewrite T.
    destruct (find_later _ l1 l2 tid t F Ht) as [t' [Ht' [[_ [Hr Hc]] [Hb Ha]]]].
    exists t'. auto.
Qed.

(** The read routes ([GET /tickets], [GET /tickets/{id}],
    [GET /tickets/{id}/comments], [GET /users], [GET /dashboard/stats])
    never change the store, whatever their outcome. *)
Theorem read_routes_keep_store (tok : Decoded) (req : Request) (db : DB)
  (Hread : match req with
           | CreateTicket _ _ _ _ | UpdateTicket _ _ _ _ | AddComment _ _ _ _ => False
           | _ => True
           end) :
  fst (serve tok req db) = db.
Proof.
  unfold serve, bind. destruct (get_current_user_store tok db) as [r E]. rewrite E.
  destruct r as [cu|e]; [|reflexivity].
  destruct req; try contradiction; unfold handle; rewrite fmap_fst.
  - apply get_tickets_store.
  - apply get_ticket_store.
  - apply get_comments_store.
  - apply get_users_store.
  - apply get_dashboard_stats_store.
Qed.

Lemma read_routes_keep_store_witness :
  fst (serve (Payload (Some "sam"%string) SUPPORT_AGENT) GetDashboardStats db_closed) = db_closed.
Proof.
  exact (read_routes_keep_store (Payload (Some "sam"%string) SUPPORT_AGENT) GetDashboardStats db_closed I).
Defined.
